(** * TryCentral flow pilot: the chat assistant's classifier and set-up sequencer

    A shallow embedding of the [ChatInterface] React component.  The
    repository holds four revisions of that component:

    - [src/components/ChatInterface.tsx]: chat and classifier, the card has
      no set-up flow (module [Basic]);
    - [part_000], lines 870-1193: the earliest card ("Workflow Preview"),
      whose classifier uses other trigger and frequency labels (module
      [Preview]);
    - [part_000], lines 1-868: the card with a set-up panel driven by
      [handleConnectTool] (module [ManualSetup]);
    - [part_001]: the card whose [handleConnectWorkflow] runs the whole
      set-up as a chain of timers (module [AutoSetup]).

    React state is modelled by explicit state passing: every [useState]
    cell is a record field, every handler a function on the record, every
    [setTimeout] an entry in a queue of pending timers, and the JSX
    conditions under which a control is rendered and not disabled are the
    [enabled] predicate of the step function.  One card is followed; the
    shared cells ([messages], [connectedTools]) live in the same record.

    Two things are left to the reader of the model.  A card keeps its
    cells for as long as it is displayed: that React may re-create the
    nested [WorkflowCard] component when [ChatInterface] renders again is
    not modelled.  And any pending timer may be the next to run: the
    browser's order, earliest due time first, is one of the orders the
    step function allows. *)

From Stdlib Require Import String Ascii NArith List Lia.
From stdpp Require Import base strings gmap list pretty.
Import ListNotations.
Open Scope string_scope.

(** ** Strings *)

(** [String.prototype.toLowerCase] and [String.prototype.trim] belong to the
    JavaScript runtime, not to the repository.  The component is
    parametrised over them; [asciiOps] is their restriction to ASCII text,
    used wherever a concrete input is evaluated. *)
Class StringOps := {
  toLowerCase : string → string;
  trim : string → string
}.

Definition asciiLower (c : ascii) : ascii :=
  let n := N_of_ascii c in
  if ((65 <=? n) && (n <=? 90))%N then ascii_of_N (n + 32) else c.

Fixpoint asciiToLowerCase (s : string) : string :=
  match s with
  | EmptyString => EmptyString
  | String c t => String (asciiLower c) (asciiToLowerCase t)
  end.

(** TAB, LF, VT, FF, CR and SPACE: the ASCII part of ECMAScript's
    WhiteSpace and LineTerminator. *)
Definition isAsciiSpace (c : ascii) : bool :=
  let n := N_of_ascii c in
  ((9 <=? n) && (n <=? 13) || (n =? 32))%N.

Fixpoint trimStart (s : string) : string :=
  match s with
  | EmptyString => EmptyString
  | String c t => if isAsciiSpace c then trimStart t else s
  end.

Fixpoint trimEnd (s : string) : string :=
  match s with
  | EmptyString => EmptyString
  | String c t =>
      match trimEnd t with
      | EmptyString => if isAsciiSpace c then EmptyString else String c EmptyString
      | t' => String c t'
      end
  end.

Definition asciiOps : StringOps :=
  {| toLowerCase := asciiToLowerCase; trim := fun s => trimEnd (trimStart s) |}.

(** [s.includes(sub)]: [sub] occurs in [s] as a contiguous substring. *)
Fixpoint includes (s sub : string) : bool :=
  String.prefix sub s ||
  match s with
  | EmptyString => false
  | String _ t => includes t sub
  end.

(** The double-quote character, for the texts that contain one. *)
Definition dq : string := String "034"%char EmptyString.

(** A string used as a condition: truthy unless it is empty. *)
Definition truthy (s : string) : bool := negb (String.eqb s "").

(** ** Data model *)

Record WorkflowSuggestion := {
  trigger : string;
  action : string;
  frequency : string;
  tools : list string;
  missingInfo : option (list string);
  prefilled : option bool
}.

Inductive MessageType := user | bot.

(** [id] is [Date.now().toString()] and [timestamp] is [new Date()]; both
    read the model's clock, in milliseconds. *)
Record Message := {
  id : string;
  type : MessageType;
  content : string;
  timestamp : N;
  workflowSuggestion : option WorkflowSuggestion
}.

(** A pending [setTimeout]: the instant it is due and what it will run. *)
Record Timer (Callback : Type) := {
  due : N;
  callback : Callback
}.
Arguments due {Callback} _.
Arguments callback {Callback} _.

(** ** Intent classifier *)

(** [analyzeUserIntent] of [src/components/ChatInterface.tsx] (lines 49-94);
    the same text is at [part_000] lines 100-145 and [part_001] lines
    101-146. *)
Definition analyzeUserIntent `{StringOps} (message : string) : option WorkflowSuggestion :=
  let lowerMessage := toLowerCase message in
  if includes lowerMessage "slack" &&
     (includes lowerMessage "every" || includes lowerMessage "daily" || includes lowerMessage "morning")
  then Some {| trigger := "Time-based";
               action := "Send Slack message";
               frequency := "Daily at 9:00 AM";
               tools := ["Slack"];
               missingInfo := Some ["Which Slack channel?"; "What message content?"];
               prefilled := None |}
  else if includes lowerMessage "email" && includes lowerMessage "whatsapp"
  then Some {| trigger := "Email received";
               action := "Send WhatsApp notification";
               frequency := "Every time";
               tools := ["Gmail"; "WhatsApp"];
               missingInfo := Some ["Define " ++ dq ++ "important email" ++ dq ++ " criteria"];
               prefilled := None |}
  else if includes lowerMessage "remind" || includes lowerMessage "reminder"
  then Some {| trigger := "Time-based";
               action := "Send reminder";
               frequency := "Custom";
               tools := ["Calendar"; "Notifications"];
               missingInfo := Some ["When should I remind you?"; "What reminder message?"];
               prefilled := None |}
  else if includes lowerMessage "when" || includes lowerMessage "if"
  then Some {| trigger := "Event-based";
               action := "Execute action";
               frequency := "When condition is met";
               tools := ["To be determined"];
               missingInfo := Some ["What specific condition?"; "What action to take?"];
               prefilled := None |}
  else None.

(** The reply for a request no rule recognises; the same sentence in every
    revision of [handleSendMessage]. *)
Definition clarification : string :=
  "I'd love to help you automate that! Can you be more specific about when you want this to happen and what action should be taken? For example: "
  ++ dq ++ "Every Monday at 10am" ++ dq ++ " or " ++ dq ++ "When I receive an email from my boss" ++ dq.

Module Preview.

(** [analyzeUserIntent] of the earliest card, [part_000] lines 916-961: the
    same four rules, other trigger and frequency labels. *)
Definition analyzeUserIntent `{StringOps} (message : string) : option WorkflowSuggestion :=
  let lowerMessage := toLowerCase message in
  if includes lowerMessage "slack" &&
     (includes lowerMessage "every" || includes lowerMessage "daily" || includes lowerMessage "morning")
  then Some {| trigger := "Schedule";
               action := "Send Slack message";
               frequency := "Daily at 9:00 AM";
               tools := ["Slack"];
               missingInfo := Some ["Which Slack channel?"; "What message content?"];
               prefilled := None |}
  else if includes lowerMessage "email" && includes lowerMessage "whatsapp"
  then Some {| trigger := "New important email received";
               action := "Send WhatsApp notification";
               frequency := "Every time";
               tools := ["Gmail"; "WhatsApp"];
               missingInfo := Some ["Define " ++ dq ++ "important email" ++ dq ++ " criteria"];
               prefilled := None |}
  else if includes lowerMessage "remind" || includes lowerMessage "reminder"
  then Some {| trigger := "Schedule";
               action := "Send reminder";
               frequency := "As specified";
               tools := ["Calendar"; "Notifications"];
               missingInfo := Some ["When should I remind you?"; "What reminder message?"];
               prefilled := None |}
  else if includes lowerMessage "when" || includes lowerMessage "if"
  then Some {| trigger := "Custom condition";
               action := "Execute action";
               frequency := "When condition is met";
               tools := ["To be determined"];
               missingInfo := Some ["What specific condition?"; "What action to take?"];
               prefilled := None |}
  else None.

End Preview.

(** The icons of [lucide-react] that [getToolIcon] chooses from. *)
Inductive Icon := SlackIcon | PhoneIcon | MailIcon | CalendarIcon | MessageSquareIcon | ZapIcon.

(** ** The chat of [src/components/ChatInterface.tsx] *)

Module Basic.

(** The closure handed to [setTimeout] by [handleSendMessage], with the
    [input] it captured. *)
Inductive Callback :=
| BotReply (input : string).

Record State := {
  messages : list Message;
  input : string;
  isTyping : bool;
  clock : N;
  timers : list (Timer Callback)
}.

Definition greeting (now : N) : Message :=
  {| id := "1"; type := bot;
     content := "Hi! I'm your TryCentral AI assistant. Tell me what task you'd like to automate and I'll help you set it up. For example: 'Send me a Slack message every morning at 9am' or 'When I get an important email, notify me on WhatsApp'";
     timestamp := now; workflowSuggestion := None |}.

Definition initial (now : N) : State :=
  {| messages := [greeting now]; input := ""; isTyping := false; clock := now; timers := [] |}.

(** [handleSendMessage], lines 106-142, up to the [setTimeout] call. *)
Definition handleSendMessage `{StringOps} (s : State) : State :=
  if negb (truthy (trim (input s))) then s
  else
    let userMessage :=
      {| id := pretty (clock s); type := user; content := input s;
         timestamp := clock s; workflowSuggestion := None |} in
    {| messages := messages s ++ [userMessage];
       input := "";
       isTyping := true;
       clock := clock s;
       timers := timers s ++ [{| due := (clock s + 1500)%N; callback := BotReply (input s) |}] |}.

(** The body of the timer, lines 121-141. *)
Definition botReply `{StringOps} (input : string) (s : State) : State :=
  let workflowSuggestion := analyzeUserIntent input in
  let botResponse :=
    match workflowSuggestion with
    | Some _ => "I understand! You want to automate: " ++ dq ++ input ++ dq ++ ". Let me set this up for you."
    | None => clarification
    end in
  let botMessage :=
    {| id := pretty (clock s + 1)%N; type := bot; content := botResponse;
       timestamp := clock s; workflowSuggestion := workflowSuggestion |} in
  {| messages := messages s ++ [botMessage];
     input := Basic.input s;
     isTyping := false;
     clock := clock s;
     timers := timers s |}.

Inductive Event :=
| ChangeInput (value : string)   (* the text field's onChange *)
| SendMessage                    (* the Send button, or Enter in the field *)
| Fire (i : nat)                 (* the i-th pending timer runs *)
| Elapse (d : N).                (* d milliseconds pass *)

Definition run `{StringOps} (cb : Callback) (s : State) : State :=
  match cb with
  | BotReply input => botReply input s
  end.

Definition fire `{StringOps} (i : nat) (s : State) : State :=
  match timers s !! i with
  | None => s
  | Some t =>
      run (callback t)
        {| messages := messages s; input := input s; isTyping := isTyping s;
           clock := N.max (clock s) (due t); timers := delete i (timers s) |}
  end.

Definition step `{StringOps} (s : State) (e : Event) : State :=
  match e with
  | ChangeInput value =>
      {| messages := messages s; input := value; isTyping := isTyping s;
         clock := clock s; timers := timers s |}
  | SendMessage => handleSendMessage s
  | Fire i => fire i s
  | Elapse d =>
      {| messages := messages s; input := input s; isTyping := isTyping s;
         clock := (clock s + d)%N; timers := timers s |}
  end.

Definition steps `{StringOps} (s : State) (es : list Event) : State := foldl step s es.

(** [getToolIcon], lines 96-104: a [switch] on the lower-cased name. *)
Definition getToolIcon `{StringOps} (tool : string) : Icon :=
  let key := toLowerCase tool in
  if String.eqb key "slack" then SlackIcon
  else if String.eqb key "whatsapp" then PhoneIcon
  else if String.eqb key "gmail" then MailIcon
  else if String.eqb key "calendar" then CalendarIcon
  else ZapIcon.

End Basic.

(** ** Set-up cards: what [part_000] and [part_001] share *)

Inductive Status := pending | loading | completed.

#[global] Instance Status_eq_dec : EqDecision Status.
Proof. solve_decision. Defined.

Record StepStatuses := {
  connect : Status;
  permissions : Status;
  test : Status
}.

(** The order in which a stage is meant to move. *)
Definition rank (st : Status) : nat :=
  match st with
  | pending => 0
  | loading => 1
  | completed => 2
  end.

Definition allPending : StepStatuses :=
  {| connect := pending; permissions := pending; test := pending |}.

Definition allCompleted : StepStatuses :=
  {| connect := completed; permissions := completed; test := completed |}.

(** The updaters [prev => ({ ...prev, connect: v })] and its two siblings. *)
Definition setConnect (v : Status) (prev : StepStatuses) : StepStatuses :=
  {| connect := v; permissions := permissions prev; test := test prev |}.

Definition setPermissions (v : Status) (prev : StepStatuses) : StepStatuses :=
  {| connect := connect prev; permissions := v; test := test prev |}.

Definition setTest (v : Status) (prev : StepStatuses) : StepStatuses :=
  {| connect := connect prev; permissions := permissions prev; test := v |}.

(** The initial value of the [connectedTools] cell. *)
Definition initialConnectedTools : gmap string bool :=
  list_to_map [("Slack", true); ("Gmail", false); ("WhatsApp", false);
               ("Google Sheets", false); ("Calendar", false); ("Notifications", false)].

(** [connectedTools[tool]] read as a condition: a tool the object does not
    hold reads [undefined], which is falsy.  (Tool names are the labels of
    the templates; none of them names a property that every object
    inherits.) *)
Definition isConnected (connectedTools : gmap string bool) (tool : string) : bool :=
  default false (connectedTools !! tool).

Definition connectedToolsList (connectedTools : gmap string bool) (suggestion : WorkflowSuggestion) : list string :=
  List.filter (fun tool => isConnected connectedTools tool) (tools suggestion).

Definition disconnectedToolsList (connectedTools : gmap string bool) (suggestion : WorkflowSuggestion) : list string :=
  List.filter (fun tool => negb (isConnected connectedTools tool)) (tools suggestion).

Definition allToolsConnected (connectedTools : gmap string bool) (suggestion : WorkflowSuggestion) : bool :=
  Nat.eqb (length (disconnectedToolsList connectedTools suggestion)) 0.

(** A string-or-[undefined] value turned into text, as a computed property
    key or a template-literal hole does. *)
Definition toString (v : option string) : string := default "undefined" v.

(** [a || b] on string-or-[undefined] values. *)
Definition orElse (a b : option string) : option string :=
  match a with
  | Some x => if truthy x then Some x else b
  | None => b
  end.

Inductive Settlement := Resolved | Rejected.

(** [connectTool] ([part_000] lines 158-165, [part_001] lines 170-177): what
    the promise's 2000 ms timer does to [connectedTools], and how the
    promise settles.  The executor only ever calls [resolve]. *)
Definition connectTool (toolName : option string) (prev : gmap string bool) : gmap string bool * Settlement :=
  (<[toString toolName := true]> prev, Resolved).

Record PrefilledWorkflow := {
  title : string;
  description : string;
  workflow : WorkflowSuggestion
}.

Definition prefilledWorkflows : list PrefilledWorkflow :=
  [ {| title := "Daily Slack Standup Reminder";
       description := "Send a Slack message every weekday morning";
       workflow := {| trigger := "Time-based"; action := "Send Slack message";
                      frequency := "Weekdays at 9:00 AM"; tools := ["Slack"];
                      missingInfo := None; prefilled := Some true |} |};
    {| title := "Email to WhatsApp Notifications";
       description := "Get WhatsApp alerts for important emails";
       workflow := {| trigger := "Email received"; action := "Send WhatsApp message";
                      frequency := "Every time"; tools := ["Gmail"; "WhatsApp"];
                      missingInfo := None; prefilled := Some true |} |};
    {| title := "Weekly Team Report";
       description := "Automatically generate and send weekly reports";
       workflow := {| trigger := "Time-based"; action := "Generate report";
                      frequency := "Weekly on Fridays"; tools := ["Google Sheets"; "Slack"];
                      missingInfo := None; prefilled := Some true |} |} ].

(** A bot message without a card, stamped with the current time. *)
Definition botNote (now : N) (text : string) : Message :=
  {| id := pretty now; type := bot; content := text; timestamp := now; workflowSuggestion := None |}.

(** The acknowledgement of [handleSendMessage] in [part_000] (line 197) and
    [part_001] (line 209). *)
Definition acknowledgement (input : string) : string :=
  "Perfect! I understand you want to automate: " ++ dq ++ input ++ dq ++ ". Let me set this up for you.".

(** ** [part_000], lines 1-868: set-up driven by [handleConnectTool] *)

Module ManualSetup.

(** The closures handed to [setTimeout].  [ToolConnected] is the timer
    inside [connectTool]; it resolves the promise [handleConnectTool] is
    awaiting, so the rest of [handleConnectTool] runs with it. *)
Inductive Callback :=
| BotReply (input : string)                (* handleSendMessage, 1500 ms *)
| ToolConnected (toolName : option string) (* connectTool, 2000 ms *)
| ConfigurePermissions                     (* handleConnectTool, 1000 ms *)
| PermissionsConfigured                    (* handleConfigurePermissions, 1500 ms *)
| TestWorkflow                             (* handleConfigurePermissions, 1000 ms *)
| WorkflowTested                           (* handleTestWorkflow, 2000 ms *)
| ShowAlert.                               (* handleTestWorkflow, 500 ms *)

(** The cells of [ChatInterface], those of the [WorkflowCard] of
    [suggestion], and the environment: the texts passed to [alert], the
    clock and the pending timers. *)
Record State := {
  messages : list Message;
  input : string;
  isTyping : bool;
  connectedTools : gmap string bool;
  suggestion : WorkflowSuggestion;
  showSetupSteps : bool;
  currentStep : nat;
  stepStatuses : StepStatuses;
  isConnecting : bool;
  connectingTool : option string;
  alerts : list string;
  clock : N;
  timers : list (Timer Callback)
}.

(** The card of [suggestion] as it mounts, [history] being the messages so
    far. *)
Definition initial (now : N) (history : list Message) (suggestion : WorkflowSuggestion) : State :=
  {| messages := history; input := ""; isTyping := false;
     connectedTools := initialConnectedTools;
     suggestion := suggestion;
     showSetupSteps := false; currentStep := 1; stepStatuses := allPending;
     isConnecting := false; connectingTool := Some "";
     alerts := []; clock := now; timers := [] |}.

Definition setMessages (f : list Message → list Message) (s : State) : State :=
  Build_State (f (messages s)) (input s) (isTyping s) (connectedTools s) (suggestion s)
    (showSetupSteps s) (currentStep s) (stepStatuses s) (isConnecting s) (connectingTool s)
    (alerts s) (clock s) (timers s).

Definition setInput (v : string) (s : State) : State :=
  Build_State (messages s) v (isTyping s) (connectedTools s) (suggestion s)
    (showSetupSteps s) (currentStep s) (stepStatuses s) (isConnecting s) (connectingTool s)
    (alerts s) (clock s) (timers s).

Definition setIsTyping (v : bool) (s : State) : State :=
  Build_State (messages s) (input s) v (connectedTools s) (suggestion s)
    (showSetupSteps s) (currentStep s) (stepStatuses s) (isConnecting s) (connectingTool s)
    (alerts s) (clock s) (timers s).

Definition setConnectedTools (f : gmap string bool → gmap string bool) (s : State) : State :=
  Build_State (messages s) (input s) (isTyping s) (f (connectedTools s)) (suggestion s)
    (showSetupSteps s) (currentStep s) (stepStatuses s) (isConnecting s) (connectingTool s)
    (alerts s) (clock s) (timers s).

Definition setShowSetupSteps (v : bool) (s : State) : State :=
  Build_State (messages s) (input s) (isTyping s) (connectedTools s) (suggestion s)
    v (currentStep s) (stepStatuses s) (isConnecting s) (connectingTool s)
    (alerts s) (clock s) (timers s).

Definition setCurrentStep (v : nat) (s : State) : State :=
  Build_State (messages s) (input s) (isTyping s) (connectedTools s) (suggestion s)
    (showSetupSteps s) v (stepStatuses s) (isConnecting s) (connectingTool s)
    (alerts s) (clock s) (timers s).

Definition setStepStatuses (f : StepStatuses → StepStatuses) (s : State) : State :=
  Build_State (messages s) (input s) (isTyping s) (connectedTools s) (suggestion s)
    (showSetupSteps s) (currentStep s) (f (stepStatuses s)) (isConnecting s) (connectingTool s)
    (alerts s) (clock s) (timers s).

Definition setIsConnecting (v : bool) (s : State) : State :=
  Build_State (messages s) (input s) (isTyping s) (connectedTools s) (suggestion s)
    (showSetupSteps s) (currentStep s) (stepStatuses s) v (connectingTool s)
    (alerts s) (clock s) (timers s).

Definition setConnectingTool (v : option string) (s : State) : State :=
  Build_State (messages s) (input s) (isTyping s) (connectedTools s) (suggestion s)
    (showSetupSteps s) (currentStep s) (stepStatuses s) (isConnecting s) v
    (alerts s) (clock s) (timers s).

Definition alert (text : string) (s : State) : State :=
  Build_State (messages s) (input s) (isTyping s) (connectedTools s) (suggestion s)
    (showSetupSteps s) (currentStep s) (stepStatuses s) (isConnecting s) (connectingTool s)
    (alerts s ++ [text])%list (clock s) (timers s).

Definition setClock (v : N) (s : State) : State :=
  Build_State (messages s) (input s) (isTyping s) (connectedTools s) (suggestion s)
    (showSetupSteps s) (currentStep s) (stepStatuses s) (isConnecting s) (connectingTool s)
    (alerts s) v (timers s).

Definition setTimers (f : list (Timer Callback) → list (Timer Callback)) (s : State) : State :=
  Build_State (messages s) (input s) (isTyping s) (connectedTools s) (suggestion s)
    (showSetupSteps s) (currentStep s) (stepStatuses s) (isConnecting s) (connectingTool s)
    (alerts s) (clock s) (f (timers s)).

Definition setTimeout (cb : Callback) (delay : N) (s : State) : State :=
  setTimers (fun q => (q ++ [{| due := (clock s + delay)%N; callback := cb |}])%list) s.

(** Lines 167-175. *)
Definition suggestToolConnection (toolName : string) (s : State) : State :=
  setMessages (fun prev => (prev ++
    [botNote (clock s) ("I notice you need " ++ toolName ++
       " for this workflow. Would you like me to help you connect it? It's quick and secure! 🔗")])%list) s.

(** Lines 177-213, up to the [setTimeout] call. *)
Definition handleSendMessage `{StringOps} (s : State) : State :=
  if negb (truthy (trim (input s))) then s
  else
    let userMessage :=
      {| id := pretty (clock s); type := user; content := input s;
         timestamp := clock s; workflowSuggestion := None |} in
    setTimeout (BotReply (input s)) 1500
      (setIsTyping true (setInput "" (setMessages (fun prev => (prev ++ [userMessage])%list) s))).

(** Lines 192-212: the body of that timer. *)
Definition botReply `{StringOps} (input : string) (s : State) : State :=
  let workflowSuggestion := analyzeUserIntent input in
  let botResponse :=
    match workflowSuggestion with
    | Some _ => acknowledgement input
    | None => clarification
    end in
  let botMessage :=
    {| id := pretty (clock s + 1)%N; type := bot; content := botResponse;
       timestamp := clock s; workflowSuggestion := workflowSuggestion |} in
  setIsTyping false (setMessages (fun prev => (prev ++ [botMessage])%list) s).

(** Lines 215-225. *)
Definition handlePrefilledWorkflow (workflow : WorkflowSuggestion) (s : State) : State :=
  let botMessage :=
    {| id := pretty (clock s); type := bot;
       content := "Great choice! Let me set up this workflow for you. You can customize any of the settings below:";
       timestamp := clock s; workflowSuggestion := Some workflow |} in
  setMessages (fun prev => (prev ++ [botMessage])%list) s.

(** Lines 283-300.  [console.log] leaves no trace in the state. *)
Definition handleConnectWorkflow (s : State) : State :=
  if negb (allToolsConnected (connectedTools s) (suggestion s)) then
    foldl (fun acc tool => suggestToolConnection tool acc) s
      (disconnectedToolsList (connectedTools s) (suggestion s))
  else setShowSetupSteps true s.

(** Lines 302-309: [handleConnectTool] up to its [await]. *)
Definition handleConnectTool (toolName : option string) (s : State) : State :=
  let toolToConnect := orElse toolName (head (disconnectedToolsList (connectedTools s) (suggestion s))) in
  setTimeout (ToolConnected toolToConnect) 2000
    (setStepStatuses (setConnect loading)
      (setConnectingTool toolToConnect (setIsConnecting true s))).

(** Lines 160-163 and 310-321: the timer of [connectTool] fires, then
    [handleConnectTool] resumes, in its [try] branch when the promise
    resolved and in its [catch] branch otherwise. *)
Definition toolConnected (toolName : option string) (s : State) : State :=
  let (next, settled) := connectTool toolName (connectedTools s) in
  let s := setConnectedTools (fun _ => next) s in
  match settled with
  | Resolved =>
      setTimeout ConfigurePermissions 1000
        (setCurrentStep 2 (setIsConnecting false (setStepStatuses (setConnect completed) s)))
  | Rejected => setIsConnecting false s
  end.

(** Lines 324-337. *)
Definition handleConfigurePermissions (s : State) : State :=
  setTimeout PermissionsConfigured 1500 (setStepStatuses (setPermissions loading) s).

Definition permissionsConfigured (s : State) : State :=
  setTimeout TestWorkflow 1000 (setCurrentStep 3 (setStepStatuses (setPermissions completed) s)).

(** Lines 339-351. *)
Definition handleTestWorkflow (s : State) : State :=
  setTimeout WorkflowTested 2000 (setStepStatuses (setTest loading) s).

Definition workflowTested (s : State) : State :=
  setTimeout ShowAlert 500 (setStepStatuses (setTest completed) s).

Definition showAlert (s : State) : State :=
  alert "🎉 Workflow activated successfully! Your automation is now live and will run according to your schedule." s.

(** Lines 372-381. *)
Definition handleViewDashboard (s : State) : State :=
  setMessages (fun prev => (prev ++
    [botNote (clock s) "Opening your workflow dashboard! Here you can see all your active automations, their performance, and recent activity."])%list) s.

(** Lines 383-400. *)
Definition handleEditWorkflow (s : State) : State :=
  let s := setShowSetupSteps false s in
  let s := setCurrentStep 1 s in
  let s := setStepStatuses (fun _ => {| connect := pending; permissions := pending; test := pending |}) s in
  setMessages (fun prev => (prev ++
    [botNote (clock s) "Great! You can now edit your workflow settings below. Make any changes you need and then save the updated workflow."])%list) s.

Inductive Event :=
| ChangeInput (value : string)  (* the text field's onChange *)
| SendMessage                   (* the Send button, or Enter in the field *)
| ChoosePrefilled (i : nat)     (* a card of "Popular Workflows" *)
| ConnectWorkflow               (* the card's main button *)
| ConnectListedTool (i : nat)   (* Connect, next to a tool in "Tools Connection Required" *)
| ConnectInPanel                (* Connect, in step 1 of the set-up panel *)
| ViewDashboard
| EditWorkflow
| Fire (i : nat)                (* the i-th pending timer runs *)
| Elapse (d : N).               (* d milliseconds pass *)

(** When the JSX renders the control and does not disable it (lines
    424-433, 512-532, 553-579, 700-729, 761-787). *)
Definition enabled (s : State) (e : Event) : bool :=
  match e with
  | ChangeInput _ | SendMessage | Fire _ | Elapse _ => true
  | ChoosePrefilled i => Nat.eqb (length (messages s)) 1 && bool_decide (is_Some (prefilledWorkflows !! i))
  | ConnectWorkflow => negb (showSetupSteps s)
  | ConnectListedTool i =>
      negb (allToolsConnected (connectedTools s) (suggestion s)) &&
      bool_decide (is_Some (disconnectedToolsList (connectedTools s) (suggestion s) !! i))
  | ConnectInPanel =>
      showSetupSteps s && bool_decide (connect (stepStatuses s) = pending) && negb (isConnecting s)
  | ViewDashboard | EditWorkflow =>
      showSetupSteps s && bool_decide (test (stepStatuses s) = completed)
  end.

Definition run `{StringOps} (cb : Callback) (s : State) : State :=
  match cb with
  | BotReply input => botReply input s
  | ToolConnected toolName => toolConnected toolName s
  | ConfigurePermissions => handleConfigurePermissions s
  | PermissionsConfigured => permissionsConfigured s
  | TestWorkflow => handleTestWorkflow s
  | WorkflowTested => workflowTested s
  | ShowAlert => showAlert s
  end.

(** The [i]-th pending timer runs; it never runs before it is due. *)
Definition fire `{StringOps} (i : nat) (s : State) : State :=
  match timers s !! i with
  | None => s
  | Some t => run (callback t) (setTimers (delete i) (setClock (N.max (clock s) (due t)) s))
  end.

Definition handle `{StringOps} (e : Event) (s : State) : State :=
  match e with
  | ChangeInput value => setInput value s
  | SendMessage => handleSendMessage s
  | ChoosePrefilled i =>
      match prefilledWorkflows !! i with
      | Some p => handlePrefilledWorkflow (workflow p) s
      | None => s
      end
  | ConnectWorkflow => handleConnectWorkflow s
  | ConnectListedTool i =>
      match disconnectedToolsList (connectedTools s) (suggestion s) !! i with
      | Some tool => handleConnectTool (Some tool) s
      | None => s
      end
  | ConnectInPanel => handleConnectTool None s
  | ViewDashboard => handleViewDashboard s
  | EditWorkflow => handleEditWorkflow s
  | Fire i => fire i s
  | Elapse d => setClock (clock s + d)%N s
  end.

(** An event on a control that is not available changes nothing. *)
Definition step `{StringOps} (s : State) (e : Event) : State :=
  if enabled s e then handle e s else s.

Definition steps `{StringOps} (s : State) (es : list Event) : State := foldl step s es.

(** The states the card can be in. *)
Inductive reachable `{StringOps} (sg : WorkflowSuggestion) : State → Prop :=
| reachable_initial now history : reachable sg (initial now history sg)
| reachable_step s e : reachable sg s → reachable sg (step s e).

(** [getToolIcon], lines 147-156. *)
Definition getToolIcon `{StringOps} (tool : string) : Icon :=
  let key := toLowerCase tool in
  if String.eqb key "slack" then SlackIcon
  else if String.eqb key "whatsapp" then PhoneIcon
  else if String.eqb key "gmail" then MailIcon
  else if String.eqb key "calendar" then CalendarIcon
  else if String.eqb key "google sheets" then MessageSquareIcon
  else ZapIcon.

(** The condition under which the set-up panel shows its note "You'll be
    redirected to connect your ... account" (lines 729 and 500). *)
Definition showsRedirectNote (s : State) : bool :=
  showSetupSteps s && Nat.eqb (currentStep s) 1 &&
  bool_decide (connect (stepStatuses s) = pending) &&
  negb (allToolsConnected (connectedTools s) (suggestion s)).

End ManualSetup.

(** ** [part_001]: set-up run by [handleConnectWorkflow] *)

(** [list.join(sep)]. *)
Fixpoint join (sep : string) (l : list string) : string :=
  match l with
  | [] => ""
  | [x] => x
  | x :: rest => x ++ sep ++ join sep rest
  end.

Module AutoSetup.

(** The closures handed to [setTimeout].  [ToolConnected] is the timer
    inside [connectTool] together with the rest of the [handleConnectTool]
    call that awaits it; that call keeps the [disconnectedToolsList] of the
    render it was started from.  The next six are the nested timers of
    [handleConnectWorkflow], outermost first. *)
Inductive Callback :=
| BotReply (input : string)                                        (* handleSendMessage, 1500 ms *)
| ToolConnected (toolName : option string) (listed : list string)  (* connectTool, 2000 ms *)
| ConnectDone                                                      (* line 313, 1000 ms *)
| StartPermissions                                                 (* line 319, 1000 ms *)
| PermissionsDone                                                  (* line 322, 1500 ms *)
| StartTest                                                        (* line 327, 1000 ms *)
| TestDone                                                         (* line 330, 2000 ms *)
| Announce.                                                        (* line 334, 500 ms *)

(** The cells of [ChatInterface], those of the [WorkflowCard] of
    [suggestion], the clock and the pending timers. *)
Record State := {
  messages : list Message;
  input : string;
  isTyping : bool;
  showDashboard : bool;
  connectedTools : gmap string bool;
  suggestion : WorkflowSuggestion;
  showSetupSteps : bool;
  currentStep : nat;
  stepStatuses : StepStatuses;
  isConnecting : bool;
  connectingTool : option string;
  clock : N;
  timers : list (Timer Callback)
}.

(** The card of [suggestion] as it mounts, [history] being the messages so
    far. *)
Definition initial (now : N) (history : list Message) (suggestion : WorkflowSuggestion) : State :=
  {| messages := history; input := ""; isTyping := false; showDashboard := false;
     connectedTools := initialConnectedTools;
     suggestion := suggestion;
     showSetupSteps := false; currentStep := 1; stepStatuses := allPending;
     isConnecting := false; connectingTool := Some "";
     clock := now; timers := [] |}.

Definition setMessages (f : list Message → list Message) (s : State) : State :=
  Build_State (f (messages s)) (input s) (isTyping s) (showDashboard s) (connectedTools s) (suggestion s)
    (showSetupSteps s) (currentStep s) (stepStatuses s) (isConnecting s) (connectingTool s)
    (clock s) (timers s).

Definition setInput (v : string) (s : State) : State :=
  Build_State (messages s) v (isTyping s) (showDashboard s) (connectedTools s) (suggestion s)
    (showSetupSteps s) (currentStep s) (stepStatuses s) (isConnecting s) (connectingTool s)
    (clock s) (timers s).

Definition setIsTyping (v : bool) (s : State) : State :=
  Build_State (messages s) (input s) v (showDashboard s) (connectedTools s) (suggestion s)
    (showSetupSteps s) (currentStep s) (stepStatuses s) (isConnecting s) (connectingTool s)
    (clock s) (timers s).

Definition setShowDashboard (v : bool) (s : State) : State :=
  Build_State (messages s) (input s) (isTyping s) v (connectedTools s) (suggestion s)
    (showSetupSteps s) (currentStep s) (stepStatuses s) (isConnecting s) (connectingTool s)
    (clock s) (timers s).

Definition setConnectedTools (f : gmap string bool → gmap string bool) (s : State) : State :=
  Build_State (messages s) (input s) (isTyping s) (showDashboard s) (f (connectedTools s)) (suggestion s)
    (showSetupSteps s) (currentStep s) (stepStatuses s) (isConnecting s) (connectingTool s)
    (clock s) (timers s).

Definition setShowSetupSteps (v : bool) (s : State) : State :=
  Build_State (messages s) (input s) (isTyping s) (showDashboard s) (connectedTools s) (suggestion s)
    v (currentStep s) (stepStatuses s) (isConnecting s) (connectingTool s)
    (clock s) (timers s).

Definition setCurrentStep (v : nat) (s : State) : State :=
  Build_State (messages s) (input s) (isTyping s) (showDashboard s) (connectedTools s) (suggestion s)
    (showSetupSteps s) v (stepStatuses s) (isConnecting s) (connectingTool s)
    (clock s) (timers s).

Definition setStepStatuses (f : StepStatuses → StepStatuses) (s : State) : State :=
  Build_State (messages s) (input s) (isTyping s) (showDashboard s) (connectedTools s) (suggestion s)
    (showSetupSteps s) (currentStep s) (f (stepStatuses s)) (isConnecting s) (connectingTool s)
    (clock s) (timers s).

Definition setIsConnecting (v : bool) (s : State) : State :=
  Build_State (messages s) (input s) (isTyping s) (showDashboard s) (connectedTools s) (suggestion s)
    (showSetupSteps s) (currentStep s) (stepStatuses s) v (connectingTool s)
    (clock s) (timers s).

Definition setConnectingTool (v : option string) (s : State) : State :=
  Build_State (messages s) (input s) (isTyping s) (showDashboard s) (connectedTools s) (suggestion s)
    (showSetupSteps s) (currentStep s) (stepStatuses s) (isConnecting s) v
    (clock s) (timers s).

Definition setClock (v : N) (s : State) : State :=
  Build_State (messages s) (input s) (isTyping s) (showDashboard s) (connectedTools s) (suggestion s)
    (showSetupSteps s) (currentStep s) (stepStatuses s) (isConnecting s) (connectingTool s)
    v (timers s).

Definition setTimers (f : list (Timer Callback) → list (Timer Callback)) (s : State) : State :=
  Build_State (messages s) (input s) (isTyping s) (showDashboard s) (connectedTools s) (suggestion s)
    (showSetupSteps s) (currentStep s) (stepStatuses s) (isConnecting s) (connectingTool s)
    (clock s) (f (timers s)).

Definition setTimeout (cb : Callback) (delay : N) (s : State) : State :=
  setTimers (fun q => (q ++ [{| due := (clock s + delay)%N; callback := cb |}])%list) s.

(** Lines 179-187. *)
Definition suggestToolConnection (toolName : string) (s : State) : State :=
  setMessages (fun prev => (prev ++
    [botNote (clock s) ("I notice you need " ++ toolName ++
       " for this workflow. Would you like me to help you connect it? It's quick and secure! 🔗")])%list) s.

(** Lines 189-225, up to the [setTimeout] call. *)
Definition handleSendMessage `{StringOps} (s : State) : State :=
  if negb (truthy (trim (input s))) then s
  else
    let userMessage :=
      {| id := pretty (clock s); type := user; content := input s;
         timestamp := clock s; workflowSuggestion := None |} in
    setTimeout (BotReply (input s)) 1500
      (setIsTyping true (setInput "" (setMessages (fun prev => (prev ++ [userMessage])%list) s))).

(** Lines 204-224: the body of that timer. *)
Definition botReply `{StringOps} (input : string) (s : State) : State :=
  let workflowSuggestion := analyzeUserIntent input in
  let botResponse :=
    match workflowSuggestion with
    | Some _ => acknowledgement input
    | None => clarification
    end in
  let botMessage :=
    {| id := pretty (clock s + 1)%N; type := bot; content := botResponse;
       timestamp := clock s; workflowSuggestion := workflowSuggestion |} in
  setIsTyping false (setMessages (fun prev => (prev ++ [botMessage])%list) s).

(** Lines 227-237. *)
Definition handlePrefilledWorkflow (workflow : WorkflowSuggestion) (s : State) : State :=
  let botMessage :=
    {| id := pretty (clock s); type := bot;
       content := "Great choice! Let me set up this workflow for you. You can customize any of the settings below:";
       timestamp := clock s; workflowSuggestion := Some workflow |} in
  setMessages (fun prev => (prev ++ [botMessage])%list) s.

(** Lines 358-363: [handleConnectTool] up to its [await]. *)
Definition handleConnectTool (toolName : option string) (s : State) : State :=
  setTimeout (ToolConnected toolName (disconnectedToolsList (connectedTools s) (suggestion s))) 2000
    (setConnectingTool toolName (setIsConnecting true s)).

(** [t !== toolName], where [toolName] may be [undefined]. *)
Definition differs (toolName : option string) (t : string) : bool :=
  negb (bool_decide (Some t = toolName)).

(** Lines 172-175 and 364-379: the timer of [connectTool] fires, then
    [handleConnectTool] resumes, in its [try] branch when the promise
    resolved and in its [catch] branch otherwise. *)
Definition toolConnected (toolName : option string) (listed : list string) (s : State) : State :=
  let (next, settled) := connectTool toolName (connectedTools s) in
  let s := setConnectedTools (fun _ => next) s in
  match settled with
  | Resolved =>
      let remaining := List.filter (differs toolName) listed in
      let successMessage :=
        botNote (clock s)
          ("🎉 Great! " ++ toString toolName ++ " is now connected. " ++
           (if Nat.eqb (length remaining) 0
            then "All tools are connected! You can now set up your workflow."
            else "You still need to connect " ++ join ", " remaining ++ ".")) in
      setMessages (fun prev => (prev ++ [successMessage])%list)
        (setConnectingTool (Some "") (setIsConnecting false s))
  | Rejected => setConnectingTool (Some "") (setIsConnecting false s)
  end.

(** Lines 295-356.  [console.log] leaves no trace in the state. *)
Definition handleConnectWorkflow (s : State) : State :=
  let disconnected := disconnectedToolsList (connectedTools s) (suggestion s) in
  if negb (allToolsConnected (connectedTools s) (suggestion s)) then
    if Nat.ltb 0 (length disconnected)
    then handleConnectTool (orElse (head disconnected) (head (tools (suggestion s)))) s
    else s
  else
    setTimeout ConnectDone 1000
      (setStepStatuses (fun _ => {| connect := loading; permissions := pending; test := pending |})
        (setCurrentStep 1 (setShowSetupSteps true s))).

(** Lines 313-347, one definition per nested timer. *)
Definition connectDone (s : State) : State :=
  setTimeout StartPermissions 1000 (setCurrentStep 2 (setStepStatuses (setConnect completed) s)).

Definition startPermissions (s : State) : State :=
  setTimeout PermissionsDone 1500 (setStepStatuses (setPermissions loading) s).

Definition permissionsDone (s : State) : State :=
  setTimeout StartTest 1000 (setCurrentStep 3 (setStepStatuses (setPermissions completed) s)).

Definition startTest (s : State) : State :=
  setTimeout TestDone 2000 (setStepStatuses (setTest loading) s).

Definition testDone (s : State) : State :=
  setTimeout Announce 500 (setStepStatuses (setTest completed) s).

Definition announce (s : State) : State :=
  setMessages (fun prev => (prev ++
    [botNote (clock s) "🎉 Workflow activated successfully! Your automation is now live and will run according to your schedule."])%list) s.

(** Lines 438-447. *)
Definition handleViewDashboard (s : State) : State :=
  let s := setShowDashboard true s in
  setMessages (fun prev => (prev ++
    [botNote (clock s) "🚀 Opening your workflow dashboard! Here you can monitor all your active automations, view performance metrics, and see recent activity."])%list) s.

(** Lines 449-466. *)
Definition handleEditWorkflow (s : State) : State :=
  let s := setShowSetupSteps false s in
  let s := setCurrentStep 1 s in
  let s := setStepStatuses (fun _ => {| connect := pending; permissions := pending; test := pending |}) s in
  setMessages (fun prev => (prev ++
    [botNote (clock s) "✏️ Perfect! You can now edit your workflow settings below. Make any changes you need and then click 'Set Up Workflow' again to save the updated workflow."])%list) s.

(** [handleConfigurePermissions] and [handleTestWorkflow] (lines 382-417)
    are still declared in this revision, but nothing calls them. *)

Inductive Event :=
| ChangeInput (value : string)  (* the text field's onChange *)
| SendMessage                   (* the Send button, or Enter in the field *)
| ChoosePrefilled (i : nat)     (* a card of "Popular Workflows" *)
| ConnectWorkflow               (* the card's main button *)
| ConnectListedTool (i : nat)   (* Connect, on a card of "Connect your tools to get started" *)
| ConnectInPanel                (* Connect, in step 1 of the set-up panel *)
| ViewDashboard
| EditWorkflow
| OpenDashboard (open : bool)   (* the dashboard sheet's onOpenChange *)
| Fire (i : nat)                (* the i-th pending timer runs *)
| Elapse (d : N).               (* d milliseconds pass *)

(** When the JSX renders the control and does not disable it (lines
    476-503, 556-565, 675, 797-847, 881, 1007-1033). *)
Definition enabled (s : State) (e : Event) : bool :=
  match e with
  | ChangeInput _ | SendMessage | OpenDashboard _ | Fire _ | Elapse _ => true
  | ChoosePrefilled i => Nat.eqb (length (messages s)) 1 && bool_decide (is_Some (prefilledWorkflows !! i))
  | ConnectWorkflow =>
      negb (bool_decide (test (stepStatuses s) = completed)) &&
      negb (showSetupSteps s || negb (allToolsConnected (connectedTools s) (suggestion s)))
  | ConnectListedTool i =>
      negb (allToolsConnected (connectedTools s) (suggestion s)) &&
      match disconnectedToolsList (connectedTools s) (suggestion s) !! i with
      | Some tool => negb (isConnecting s && bool_decide (connectingTool s = Some tool))
      | None => false
      end
  | ConnectInPanel =>
      showSetupSteps s && bool_decide (connect (stepStatuses s) = pending) && negb (isConnecting s)
  | ViewDashboard | EditWorkflow => bool_decide (test (stepStatuses s) = completed)
  end.

Definition run `{StringOps} (cb : Callback) (s : State) : State :=
  match cb with
  | BotReply input => botReply input s
  | ToolConnected toolName listed => toolConnected toolName listed s
  | ConnectDone => connectDone s
  | StartPermissions => startPermissions s
  | PermissionsDone => permissionsDone s
  | StartTest => startTest s
  | TestDone => testDone s
  | Announce => announce s
  end.

(** The [i]-th pending timer runs; it never runs before it is due. *)
Definition fire `{StringOps} (i : nat) (s : State) : State :=
  match timers s !! i with
  | None => s
  | Some t => run (callback t) (setTimers (delete i) (setClock (N.max (clock s) (due t)) s))
  end.

Definition handle `{StringOps} (e : Event) (s : State) : State :=
  match e with
  | ChangeInput value => setInput value s
  | SendMessage => handleSendMessage s
  | ChoosePrefilled i =>
      match prefilledWorkflows !! i with
      | Some p => handlePrefilledWorkflow (workflow p) s
      | None => s
      end
  | ConnectWorkflow => handleConnectWorkflow s
  | ConnectListedTool i =>
      match disconnectedToolsList (connectedTools s) (suggestion s) !! i with
      | Some tool => handleConnectTool (Some tool) s
      | None => s
      end
  | ConnectInPanel =>
      handleConnectTool
        (orElse (head (disconnectedToolsList (connectedTools s) (suggestion s)))
                (head (tools (suggestion s)))) s
  | ViewDashboard => handleViewDashboard s
  | EditWorkflow => handleEditWorkflow s
  | OpenDashboard open => setShowDashboard open s
  | Fire i => fire i s
  | Elapse d => setClock (clock s + d)%N s
  end.

(** An event on a control that is not available changes nothing. *)
Definition step `{StringOps} (s : State) (e : Event) : State :=
  if enabled s e then handle e s else s.

Definition steps `{StringOps} (s : State) (es : list Event) : State := foldl step s es.

(** The states the card can be in. *)
Inductive reachable `{StringOps} (sg : WorkflowSuggestion) : State → Prop :=
| reachable_initial now history : reachable sg (initial now history sg)
| reachable_step s e : reachable sg s → reachable sg (step s e).

(** [getToolIcon], lines 148-157. *)
Definition getToolIcon `{StringOps} (tool : string) : Icon :=
  let key := toLowerCase tool in
  if String.eqb key "slack" then SlackIcon
  else if String.eqb key "whatsapp" then PhoneIcon
  else if String.eqb key "gmail" then MailIcon
  else if String.eqb key "calendar" then CalendarIcon
  else if String.eqb key "google sheets" then MessageSquareIcon
  else ZapIcon.

(** [getToolColor], lines 159-168. *)
Definition getToolColor `{StringOps} (tool : string) : string :=
  let key := toLowerCase tool in
  if String.eqb key "slack" then "bg-purple-500"
  else if String.eqb key "whatsapp" then "bg-green-500"
  else if String.eqb key "gmail" then "bg-red-500"
  else if String.eqb key "calendar" then "bg-blue-500"
  else if String.eqb key "google sheets" then "bg-emerald-500"
  else "bg-gray-500".

(** The condition under which the set-up panel shows its note
    "Connecting... We're securely connecting to your ... account(s)" (lines
    854 and 632). *)
Definition showsConnectingNote (s : State) : bool :=
  showSetupSteps s && Nat.eqb (currentStep s) 1 &&
  bool_decide (connect (stepStatuses s) = loading) &&
  negb (allToolsConnected (connectedTools s) (suggestion s)).

(** *** The timer chain, as the proofs see it *)

(** The timers of [handleConnectWorkflow] that change a stage. *)
Definition isStage (cb : Callback) : bool :=
  match cb with
  | ConnectDone | StartPermissions | PermissionsDone | StartTest | TestDone => true
  | BotReply _ | ToolConnected _ _ | Announce => false
  end.

Definition stageTimers (s : State) : list (Timer Callback) :=
  List.filter (fun t => isStage (callback t)) (timers s).

(** The stage statuses while a timer of the chain is pending. *)
Definition statusBefore (cb : Callback) : StepStatuses :=
  match cb with
  | ConnectDone => {| connect := loading; permissions := pending; test := pending |}
  | StartPermissions => {| connect := completed; permissions := pending; test := pending |}
  | PermissionsDone => {| connect := completed; permissions := loading; test := pending |}
  | StartTest => {| connect := completed; permissions := completed; test := pending |}
  | TestDone => {| connect := completed; permissions := completed; test := loading |}
  | BotReply _ | ToolConnected _ _ | Announce => allPending
  end.

(** At most one timer of the chain is pending, and the stage statuses are
    the ones that timer expects; with none pending the card is idle or
    done. *)
Definition chained (s : State) : Prop :=
  match stageTimers s with
  | [] => (showSetupSteps s = false ∧ stepStatuses s = allPending) ∨
          (showSetupSteps s = true ∧ stepStatuses s = allCompleted)
  | [t] => showSetupSteps s = true ∧ stepStatuses s = statusBefore (callback t)
  | _ => False
  end.

Definition setupInv (sg : WorkflowSuggestion) (s : State) : Prop :=
  suggestion s = sg ∧ chained s ∧
  (stepStatuses s ≠ allPending → allToolsConnected (connectedTools s) sg = true).

End AutoSetup.

(** * Vocabulary of the properties *)

(** A message that none of the four keyword rules recognises. *)
Definition noRuleMatches `{StringOps} (message : string) : Prop :=
  let lowerMessage := toLowerCase message in
  ¬ (includes lowerMessage "slack" = true ∧
     (includes lowerMessage "every" = true ∨ includes lowerMessage "daily" = true
      ∨ includes lowerMessage "morning" = true)) ∧
  ¬ (includes lowerMessage "email" = true ∧ includes lowerMessage "whatsapp" = true) ∧
  ¬ (includes lowerMessage "remind" = true ∨ includes lowerMessage "reminder" = true) ∧
  ¬ (includes lowerMessage "when" = true ∨ includes lowerMessage "if" = true).

(** One step of the component does to [connectedTools] at most this: set one
    flag to true. *)
Definition flagSet (m m' : gmap string bool) : Prop :=
  m' = m ∨ ∃ key, m' = <[key := true]> m.

(** Some stage has a lower rank in [q] than in [p]. *)
Definition movesBack (p q : StepStatuses) : Prop :=
  rank (connect q) < rank (connect p) ∨
  rank (permissions q) < rank (permissions p) ∨
  rank (test q) < rank (test p).


Definition stages (c p t : Status) : StepStatuses :=
  {| connect := c; permissions := p; test := t |}.

(** How many messages of one author the history holds. *)
Definition countOf (author : MessageType) (history : list Message) : nat :=
  length (List.filter (fun m => match type m, author with
                                | user, user | bot, bot => true
                                | _, _ => false
                                end) history).

(** The step pointer that goes with the stage statuses: one, plus one for
    each of the first two stages that is completed. *)
Definition pointerFor (st : StepStatuses) : nat :=
  1 + (if bool_decide (connect st = completed) then 1 else 0)
    + (if bool_decide (permissions st = completed) then 1 else 0).

(** The seven stage configurations of a set-up that runs in order. *)
Definition orderedStages : list StepStatuses :=
  [stages pending pending pending;
   stages loading pending pending;
   stages completed pending pending;
   stages completed loading pending;
   stages completed completed pending;
   stages completed completed loading;
   stages completed completed completed].

(** The note of [suggestToolConnection] for one tool. *)
Definition connectionNote (now : N) (tool : string) : Message :=
  botNote now ("I notice you need " ++ tool ++
    " for this workflow. Would you like me to help you connect it? It's quick and secure! 🔗").

(** What holds of the chat at any time: replies so far plus replies still
    to come equal the greeting plus the requests sent, and the typing
    indicator is on only while a reply is to come. *)
Definition answered (s : Basic.State) : Prop :=
  countOf bot (Basic.messages s) + length (Basic.timers s)
    = countOf user (Basic.messages s) + 1 ∧
  (Basic.isTyping s = true → Basic.timers s ≠ []).

(** What holds of a card of [part_000] at any time: its panel is open
    only with every tool connected. *)
Definition panelInv (sg : WorkflowSuggestion) (s : ManualSetup.State) : Prop :=
  ManualSetup.suggestion s = sg ∧
  (ManualSetup.showSetupSteps s = true →
   allToolsConnected (ManualSetup.connectedTools s) sg = true).

(** Two of the prefilled workflows, by name. *)
Definition emailToWhatsApp : WorkflowSuggestion :=
  {| trigger := "Email received"; action := "Send WhatsApp message";
     frequency := "Every time"; tools := ["Gmail"; "WhatsApp"];
     missingInfo := None; prefilled := Some true |}.

Definition slackStandup : WorkflowSuggestion :=
  {| trigger := "Time-based"; action := "Send Slack message";
     frequency := "Weekdays at 9:00 AM"; tools := ["Slack"];
     missingInfo := None; prefilled := Some true |}.

(** * Properties *)

(** ** Sample evaluations *)

Example analyze_slack_friday :
  tools <$> @analyzeUserIntent asciiOps "Send me a Slack reminder every Friday at 5pm" = Some ["Slack"].
Proof. reflexivity. Qed.

Example analyze_hello : @analyzeUserIntent asciiOps "hello" = None.
Proof. reflexivity. Qed.

Example trim_blank : @trim asciiOps "  " = "" ∧ @trim asciiOps " a b  " = "a b".
Proof. split; reflexivity. Qed.

Example basic_hello :
  let s := @Basic.steps asciiOps (Basic.initial 1000) [Basic.ChangeInput "hello"; Basic.SendMessage; Basic.Fire 0] in
  (content <$> Basic.messages s) !! 2 = Some clarification ∧ Basic.isTyping s = false ∧ Basic.clock s = 2500%N.
Proof. vm_compute. auto. Qed.


(** ** The classifier *)

Section Classifier.
Context `{StringOps}.

(** Rule 1 decides as soon as its keywords are there, whatever else the
    message contains. *)
Lemma rule1_wins (message : string) :
  includes (toLowerCase message) "slack" &&
    (includes (toLowerCase message) "every" || includes (toLowerCase message) "daily"
     || includes (toLowerCase message) "morning") = true →
  analyzeUserIntent message =
    Some {| trigger := "Time-based"; action := "Send Slack message";
            frequency := "Daily at 9:00 AM"; tools := ["Slack"];
            missingInfo := Some ["Which Slack channel?"; "What message content?"];
            prefilled := None |}.
Proof. intros Hrule. unfold analyzeUserIntent. cbv zeta. by rewrite Hrule. Qed.

Lemma preview_rule1_wins (message : string) :
  includes (toLowerCase message) "slack" &&
    (includes (toLowerCase message) "every" || includes (toLowerCase message) "daily"
     || includes (toLowerCase message) "morning") = true →
  Preview.analyzeUserIntent message =
    Some {| trigger := "Schedule"; action := "Send Slack message";
            frequency := "Daily at 9:00 AM"; tools := ["Slack"];
            missingInfo := Some ["Which Slack channel?"; "What message content?"];
            prefilled := None |}.
Proof. intros Hrule. unfold Preview.analyzeUserIntent. cbv zeta. by rewrite Hrule. Qed.

Lemma no_rule_no_suggestion (message : string) :
  noRuleMatches message →
  analyzeUserIntent message = None ∧ Preview.analyzeUserIntent message = None.
Proof.
  unfold noRuleMatches. cbv zeta. intros (H1 & H2 & H3 & H4).
  assert (R1 : includes (toLowerCase message) "slack" &&
    (includes (toLowerCase message) "every" || includes (toLowerCase message) "daily"
     || includes (toLowerCase message) "morning") = false).
  { apply not_true_iff_false. rewrite andb_true_iff, !orb_true_iff. tauto. }
  assert (R2 : includes (toLowerCase message) "email" &&
                 includes (toLowerCase message) "whatsapp" = false).
  { apply not_true_iff_false. rewrite andb_true_iff. tauto. }
  assert (R3 : includes (toLowerCase message) "remind" ||
                 includes (toLowerCase message) "reminder" = false).
  { apply not_true_iff_false. rewrite orb_true_iff. tauto. }
  assert (R4 : includes (toLowerCase message) "when" ||
                 includes (toLowerCase message) "if" = false).
  { apply not_true_iff_false. rewrite orb_true_iff. tauto. }
  unfold analyzeUserIntent, Preview.analyzeUserIntent. cbv zeta.
  by rewrite R1, R2, R3, R4.
Qed.

End Classifier.

(** C3.  Whenever the lower-cased message contains both "slack" and
    "daily", the classifier (in the current text and in the earliest
    revision alike) returns a suggestion whose action is "Send Slack
    message" and whose tools are exactly ["Slack"]. *)
Theorem slack_daily_suggests_slack `{StringOps} (message : string) :
  includes (toLowerCase message) "slack" = true →
  includes (toLowerCase message) "daily" = true →
  (∃ sg, analyzeUserIntent message = Some sg ∧
         action sg = "Send Slack message" ∧ tools sg = ["Slack"]) ∧
  (∃ sg, Preview.analyzeUserIntent message = Some sg ∧
         action sg = "Send Slack message" ∧ tools sg = ["Slack"]).
Proof.
  intros Hslack Hdaily.
  assert (Hrule : includes (toLowerCase message) "slack" &&
    (includes (toLowerCase message) "every" || includes (toLowerCase message) "daily"
     || includes (toLowerCase message) "morning") = true).
  { rewrite Hslack, Hdaily. simpl. by rewrite orb_true_r. }
  split; eexists; (split; [ first [ apply rule1_wins | apply preview_rule1_wins ]; exact Hrule | ]);
    split; reflexivity.
Qed.

Lemma slack_daily_suggests_slack_witness :
  (∃ sg, @analyzeUserIntent asciiOps "Post the DAILY digest to Slack" = Some sg ∧
         action sg = "Send Slack message" ∧ tools sg = ["Slack"]) ∧
  (∃ sg, @Preview.analyzeUserIntent asciiOps "Post the DAILY digest to Slack" = Some sg ∧
         action sg = "Send Slack message" ∧ tools sg = ["Slack"]).
Proof.
  apply (@slack_daily_suggests_slack asciiOps "Post the DAILY digest to Slack"); reflexivity.
Defined.



(** C7.  "remind me to call mom" passes rules 1 and 2 and matches rule 3;
    the suggestion has tools ["Calendar"; "Notifications"] and two
    missing-info prompts, in the current text and in the earliest revision. *)
Theorem remind_me_suggests_reminder :
  let message := "remind me to call mom" in
  let lowerMessage := @toLowerCase asciiOps message in
  includes lowerMessage "slack" = false ∧
  includes lowerMessage "email" = false ∧
  includes lowerMessage "remind" = true ∧
  (∃ sg, @analyzeUserIntent asciiOps message = Some sg ∧
         action sg = "Send reminder" ∧
         tools sg = ["Calendar"; "Notifications"] ∧
         length <$> missingInfo sg = Some 2) ∧
  (∃ sg, @Preview.analyzeUserIntent asciiOps message = Some sg ∧
         action sg = "Send reminder" ∧
         tools sg = ["Calendar"; "Notifications"] ∧
         length <$> missingInfo sg = Some 2).
Proof.
  cbv zeta. split; [reflexivity|]. split; [reflexivity|]. split; [reflexivity|].
  split; eexists; (split; [reflexivity|]); repeat split.
Qed.

(** ** Sending a message *)

Lemma truthy_nonempty (x : string) : x ≠ "" → truthy x = true.
Proof. intros Hx. unfold truthy. by apply negb_true_iff, String.eqb_neq. Qed.

(** C6.  A request that matches none of the four rules gets no
    suggestion, and the reply that the timer of [handleSendMessage] appends
    for it is a bot message that carries no card and whose text is the
    fixed request to be more specific. *)
Theorem unmatched_request_gets_clarification `{StringOps} (input : string) (s : Basic.State) :
  noRuleMatches input →
  analyzeUserIntent input = None ∧
  ∃ b,
    Basic.messages (Basic.botReply input s) = (Basic.messages s ++ [b])%list ∧
    type b = bot ∧ content b = clarification ∧ workflowSuggestion b = None.
Proof.
  intros Hnone.
  destruct (no_rule_no_suggestion _ Hnone) as [Hnull _].
  split; [exact Hnull|].
  unfold Basic.botReply. rewrite Hnull. simpl.
  eexists. split; [reflexivity|]. repeat split.
Qed.

Lemma hello_matches_no_rule : @noRuleMatches asciiOps "hello".
Proof. unfold noRuleMatches. vm_compute. intuition discriminate. Qed.

Lemma unmatched_request_gets_clarification_witness :
  @analyzeUserIntent asciiOps "hello" = None ∧
  ∃ b,
    Basic.messages (@Basic.botReply asciiOps "hello" (Basic.initial 1000))
      = (Basic.messages (Basic.initial 1000) ++ [b])%list ∧
    type b = bot ∧ content b = clarification ∧ workflowSuggestion b = None.
Proof.
  apply (@unmatched_request_gets_clarification asciiOps "hello" (Basic.initial 1000)).
  exact hello_matches_no_rule.
Defined.

(** The same from the user's side: a non-blank request that matches no
    rule is appended, and once the timer has run the clarification
    follows it. *)
Lemma unmatched_request_round_trip `{StringOps} (s : Basic.State) :
  noRuleMatches (Basic.input s) →
  trim (Basic.input s) ≠ "" →
  ∃ u b,
    Basic.messages (Basic.steps s [Basic.SendMessage; Basic.Fire (length (Basic.timers s))])
      = (Basic.messages s ++ [u; b])%list ∧
    type u = user ∧ content u = Basic.input s ∧
    type b = bot ∧ content b = clarification ∧ workflowSuggestion b = None.
Proof.
  intros Hnone Hsent.
  destruct (no_rule_no_suggestion _ Hnone) as [Hnull _].
  unfold Basic.steps. simpl. unfold Basic.handleSendMessage.
  rewrite (truthy_nonempty _ Hsent). simpl.
  unfold Basic.fire. simpl.
  rewrite list_lookup_middle by reflexivity. simpl.
  unfold Basic.botReply. rewrite Hnull. simpl.
  do 2 eexists. split; [by rewrite <- app_assoc|].
  repeat split.
Qed.

(** C10.  With an input whose trimmed form is empty, sending changes
    nothing: the whole state, and so the messages, the typing flag and the
    input field, stays as it was.  The guard is the same in
    [src/components/ChatInterface.tsx], [part_000] and [part_001]. *)
Theorem blank_input_send_is_noop `{StringOps}
    (b : Basic.State) (m : ManualSetup.State) (a : AutoSetup.State) :
  trim (Basic.input b) = "" →
  trim (ManualSetup.input m) = "" →
  trim (AutoSetup.input a) = "" →
  Basic.step b Basic.SendMessage = b ∧
  ManualSetup.step m ManualSetup.SendMessage = m ∧
  AutoSetup.step a AutoSetup.SendMessage = a.
Proof.
  intros Hb Hm Ha.
  unfold Basic.step, ManualSetup.step, AutoSetup.step. simpl.
  unfold Basic.handleSendMessage, ManualSetup.handleSendMessage, AutoSetup.handleSendMessage.
  by rewrite Hb, Hm, Ha.
Qed.

Lemma blank_input_send_is_noop_witness :
  let b := @Basic.step asciiOps (Basic.initial 0) (Basic.ChangeInput "   ") in
  let m := ManualSetup.setInput "   " (ManualSetup.initial 0 [] (Build_WorkflowSuggestion "" "" "" [] None None)) in
  let a := AutoSetup.setInput "   " (AutoSetup.initial 0 [] (Build_WorkflowSuggestion "" "" "" [] None None)) in
  @Basic.step asciiOps b Basic.SendMessage = b ∧
  @ManualSetup.step asciiOps m ManualSetup.SendMessage = m ∧
  @AutoSetup.step asciiOps a AutoSetup.SendMessage = a.
Proof.
  apply (@blank_input_send_is_noop asciiOps); reflexivity.
Defined.

(** ** The connection state *)

(** C5.  Connecting a tool that is already connected leaves
    [connectedTools] as it was, entry for entry, and the promise
    resolves. *)
Theorem connect_connected_tool_is_noop (t : string) (m : gmap string bool) :
  m !! t = Some true →
  connectTool (Some t) m = (m, Resolved).
Proof. intros Ht. unfold connectTool. simpl. by rewrite insert_id. Qed.

Lemma connect_connected_tool_is_noop_witness :
  connectTool (Some "Slack") initialConnectedTools = (initialConnectedTools, Resolved).
Proof. apply (connect_connected_tool_is_noop "Slack" initialConnectedTools). reflexivity. Defined.

Lemma flagSet_keeps (m m' : gmap string bool) (t : string) :
  flagSet m m' → m !! t = Some true → m' !! t = Some true.
Proof.
  intros [-> | [key ->]] Ht; [done|].
  destruct (decide (key = t)) as [-> | Hne].
  - apply lookup_insert_eq.
  - by rewrite lookup_insert_ne.
Qed.

Lemma flagSet_dom (m m' : gmap string bool) : flagSet m m' → dom m ⊆ dom m'.
Proof.
  intros [-> | [key ->]]; [done|]. rewrite dom_insert_L. set_solver.
Qed.

Lemma allToolsConnected_spec (m : gmap string bool) (sg : WorkflowSuggestion) :
  allToolsConnected m sg = true ↔ ∀ t, t ∈ tools sg → m !! t = Some true.
Proof.
  unfold allToolsConnected, disconnectedToolsList, isConnected.
  induction (tools sg) as [|x l IH]; simpl.
  - split; [intros _ t Ht; by apply elem_of_nil in Ht | done].
  - destruct (m !! x) as [[|]|] eqn:Hx; simpl.
    + rewrite IH. split.
      * intros Hall t Ht. apply elem_of_cons in Ht as [-> | Ht]; auto.
      * intros Hall t Ht. apply Hall. by apply elem_of_cons; right.
    + split; [discriminate|]. intros Hall.
      specialize (Hall x (list_elem_of_here _ _)). congruence.
    + split; [discriminate|]. intros Hall.
      specialize (Hall x (list_elem_of_here _ _)). congruence.
Qed.

Lemma allToolsConnected_flagSet (m m' : gmap string bool) (sg : WorkflowSuggestion) :
  flagSet m m' → allToolsConnected m sg = true → allToolsConnected m' sg = true.
Proof.
  rewrite !allToolsConnected_spec. intros Hset Hall t Ht.
  eapply flagSet_keeps; eauto.
Qed.

Section ManualConnection.
Import ManualSetup.
Context `{StringOps}.

Lemma manual_suggest_connectedTools (l : list string) (s : State) :
  connectedTools (foldl (fun acc tool => suggestToolConnection tool acc) s l) = connectedTools s.
Proof. revert s. induction l as [|x l IH]; intros s; simpl; [done|]. by rewrite IH. Qed.

Lemma manual_step_connectedTools (s : State) (e : Event) :
  connectedTools (step s e) = connectedTools s ∨
  ∃ i name, e = Fire i ∧ callback <$> timers s !! i = Some (ToolConnected name) ∧
            connectedTools (step s e) = <[toString name := true]> (connectedTools s).
Proof.
  unfold step. destruct (enabled s e); [|by left].
  destruct e; simpl; try (by left).
  - unfold handleSendMessage. destruct (negb _); by left.
  - destruct (prefilledWorkflows !! i); by left.
  - unfold handleConnectWorkflow. destruct (negb _); [|by left].
    left. apply manual_suggest_connectedTools.
  - destruct (_ !! i); by left.
  - unfold fire. destruct (timers s !! i) as [[d cb]|] eqn:Hi; [|by left].
    destruct cb; simpl; try (by left).
    right. exists i, toolName. by rewrite Hi.
Qed.

Lemma manual_steps_flagSet_keeps (s : State) (es : list Event) (t : string) :
  connectedTools s !! t = Some true → connectedTools (steps s es) !! t = Some true.
Proof.
  unfold steps. revert s. induction es as [|e es IH]; intros s Ht; simpl; [done|].
  apply IH. destruct (manual_step_connectedTools s e) as [-> | (i & name & _ & _ & ->)]; [done|].
  eapply flagSet_keeps; [|exact Ht]. right. by eexists.
Qed.

Lemma manual_steps_dom (s : State) (es : list Event) :
  dom (connectedTools s) ⊆ dom (connectedTools (steps s es)).
Proof.
  unfold steps. revert s. induction es as [|e es IH]; intros s; simpl; [done|].
  etrans; [|apply IH].
  destruct (manual_step_connectedTools s e) as [-> | (i & name & _ & _ & ->)]; [done|].
  apply flagSet_dom. right. by eexists.
Qed.

End ManualConnection.

Section AutoConnection.
Import AutoSetup.
Context `{StringOps}.

Lemma auto_step_connectedTools (s : State) (e : Event) :
  connectedTools (step s e) = connectedTools s ∨
  ∃ i name listed, e = Fire i ∧ callback <$> timers s !! i = Some (ToolConnected name listed) ∧
                   connectedTools (step s e) = <[toString name := true]> (connectedTools s).
Proof.
  unfold step. destruct (enabled s e); [|by left].
  destruct e; simpl; try (by left).
  - unfold handleSendMessage. destruct (negb _); by left.
  - destruct (prefilledWorkflows !! i); by left.
  - unfold handleConnectWorkflow. destruct (negb _); [|by left].
    destruct (Nat.ltb _ _); by left.
  - destruct (_ !! i); by left.
  - unfold fire. destruct (timers s !! i) as [[d cb]|] eqn:Hi; [|by left].
    destruct cb; simpl; try (by left).
    right. exists i, toolName, listed. by rewrite Hi.
Qed.

Lemma auto_step_flagSet (s : State) (e : Event) :
  flagSet (connectedTools s) (connectedTools (step s e)).
Proof.
  destruct (auto_step_connectedTools s e) as [-> | (i & name & listed & _ & _ & ->)].
  - by left.
  - right. by eexists.
Qed.

Lemma auto_steps_flagSet_keeps (s : State) (es : list Event) (t : string) :
  connectedTools s !! t = Some true → connectedTools (steps s es) !! t = Some true.
Proof.
  unfold steps. revert s. induction es as [|e es IH]; intros s Ht; simpl; [done|].
  apply IH. eapply flagSet_keeps; [apply auto_step_flagSet | exact Ht].
Qed.

Lemma auto_steps_dom (s : State) (es : list Event) :
  dom (connectedTools s) ⊆ dom (connectedTools (steps s es)).
Proof.
  unfold steps. revert s. induction es as [|e es IH]; intros s; simpl; [done|].
  etrans; [|apply IH]. apply flagSet_dom, auto_step_flagSet.
Qed.

End AutoConnection.

(** C9.  In both set-up revisions a tool that is connected stays
    connected whatever happens next, no entry of [connectedTools] ever
    disappears, and the only step that changes [connectedTools] at all is
    the timer of [connectTool], which sets one flag to true. *)
Theorem connected_tool_stays_connected `{StringOps} (t : string)
    (m : ManualSetup.State) (ms : list ManualSetup.Event)
    (a : AutoSetup.State) (evs : list AutoSetup.Event) :
  ManualSetup.connectedTools m !! t = Some true →
  AutoSetup.connectedTools a !! t = Some true →
  (ManualSetup.connectedTools (ManualSetup.steps m ms) !! t = Some true ∧
   dom (ManualSetup.connectedTools m) ⊆ dom (ManualSetup.connectedTools (ManualSetup.steps m ms)) ∧
   ∀ e, ManualSetup.connectedTools (ManualSetup.step m e) = ManualSetup.connectedTools m ∨
        ∃ i name, e = ManualSetup.Fire i ∧
          callback <$> ManualSetup.timers m !! i = Some (ManualSetup.ToolConnected name) ∧
          ManualSetup.connectedTools (ManualSetup.step m e)
            = <[toString name := true]> (ManualSetup.connectedTools m)) ∧
  (AutoSetup.connectedTools (AutoSetup.steps a evs) !! t = Some true ∧
   dom (AutoSetup.connectedTools a) ⊆ dom (AutoSetup.connectedTools (AutoSetup.steps a evs)) ∧
   ∀ e, AutoSetup.connectedTools (AutoSetup.step a e) = AutoSetup.connectedTools a ∨
        ∃ i name listed, e = AutoSetup.Fire i ∧
          callback <$> AutoSetup.timers a !! i = Some (AutoSetup.ToolConnected name listed) ∧
          AutoSetup.connectedTools (AutoSetup.step a e)
            = <[toString name := true]> (AutoSetup.connectedTools a)).
Proof.
  intros Hm Ha. split; (split; [|split]).
  - by apply manual_steps_flagSet_keeps.
  - apply manual_steps_dom.
  - apply manual_step_connectedTools.
  - by apply auto_steps_flagSet_keeps.
  - apply auto_steps_dom.
  - apply auto_step_connectedTools.
Qed.

Example prefilled_suggestions :
  workflow <$> prefilledWorkflows !! 0 = Some slackStandup ∧
  workflow <$> prefilledWorkflows !! 1 = Some emailToWhatsApp.
Proof. split; reflexivity. Qed.

Lemma connected_tool_stays_connected_witness :
  let m := ManualSetup.initial 0 [] emailToWhatsApp in
  let ms := [ManualSetup.ConnectListedTool 0; ManualSetup.Fire 0; ManualSetup.EditWorkflow] in
  let a := AutoSetup.initial 0 [] emailToWhatsApp in
  let evs := [AutoSetup.ConnectListedTool 1; AutoSetup.Fire 0; AutoSetup.ConnectWorkflow] in
  ManualSetup.connectedTools (@ManualSetup.steps asciiOps m ms) !! "Slack" = Some true ∧
  AutoSetup.connectedTools (@AutoSetup.steps asciiOps a evs) !! "Slack" = Some true.
Proof.
  cbv zeta.
  destruct (@connected_tool_stays_connected asciiOps "Slack"
              (ManualSetup.initial 0 [] emailToWhatsApp)
              [ManualSetup.ConnectListedTool 0; ManualSetup.Fire 0; ManualSetup.EditWorkflow]
              (AutoSetup.initial 0 [] emailToWhatsApp)
              [AutoSetup.ConnectListedTool 1; AutoSetup.Fire 0; AutoSetup.ConnectWorkflow])
    as [[Hm _] [Ha _]]; [reflexivity | reflexivity |].
  split; [exact Hm | exact Ha].
Defined.

(** ** The timer chain of [part_001] *)

Lemma filter_delete_other {A} (P : A → bool) (l : list A) (i : nat) (x : A) :
  l !! i = Some x → P x = false → List.filter P (delete i l) = List.filter P l.
Proof.
  revert i. induction l as [|a l IH]; intros [|i] Hi Hx; simpl in *; try done.
  - injection Hi as ->. by rewrite Hx.
  - rewrite (IH i Hi Hx). done.
Qed.

Lemma filter_delete_single {A} (P : A → bool) (l : list A) (i : nat) (x y : A) :
  l !! i = Some x → P x = true → List.filter P l = [y] →
  x = y ∧ List.filter P (delete i l) = [].
Proof.
  revert i. induction l as [|a l IH]; intros [|i] Hi Hx Hy; simpl in *; try done.
  - injection Hi as ->. rewrite Hx in Hy. by injection Hy as -> ->.
  - destruct (P a) eqn:Ha.
    + injection Hy as -> Hnil. exfalso.
      assert (Hin : In x (List.filter P l)).
      { apply filter_In. split; [|done]. apply list_elem_of_In. by eapply list_elem_of_lookup_2. }
      by rewrite Hnil in Hin.
    + by apply IH.
Qed.

Lemma filter_lookup_nonempty {A} (P : A → bool) (l : list A) (i : nat) (x : A) :
  l !! i = Some x → P x = true → List.filter P l ≠ [].
Proof.
  intros Hi Hx Hnil.
  assert (Hin : In x (List.filter P l)).
  { apply filter_In. split; [|done]. apply list_elem_of_In. by eapply list_elem_of_lookup_2. }
  by rewrite Hnil in Hin.
Qed.

Section AutoChain.
Import AutoSetup.
Context `{StringOps}.

Lemma stageTimers_setTimeout (cb : Callback) (delay : N) (s : State) :
  stageTimers (setTimeout cb delay s) =
  (stageTimers s ++ if isStage cb then [{| due := (clock s + delay)%N; callback := cb |}] else [])%list.
Proof. unfold stageTimers, setTimeout. simpl. rewrite List.filter_app. simpl. by destruct (isStage cb). Qed.

Lemma auto_initial_inv (now : N) (history : list Message) (sg : WorkflowSuggestion) :
  setupInv sg (initial now history sg).
Proof. split; [done|]. split; [by left|]. done. Qed.

Lemma setupInv_frame (sg : WorkflowSuggestion) (s s' : State) :
  setupInv sg s →
  suggestion s' = suggestion s →
  stageTimers s' = stageTimers s →
  showSetupSteps s' = showSetupSteps s →
  stepStatuses s' = stepStatuses s →
  flagSet (connectedTools s) (connectedTools s') →
  setupInv sg s'.
Proof.
  intros (Hsg & Hch & Hconn) Hsg' Hst Hshow Hstat Hset.
  split; [congruence|]. split.
  - unfold chained in *. by rewrite Hst, Hshow, Hstat.
  - rewrite Hstat. intros Hne. eapply allToolsConnected_flagSet; eauto.
Qed.

Lemma statusBefore_not_done (cb : Callback) : test (statusBefore cb) ≠ completed.
Proof. by destruct cb. Qed.

Lemma auto_fire_inv (sg : WorkflowSuggestion) (s : State) (i : nat) :
  setupInv sg s → setupInv sg (fire i s).
Proof.
  intros Hinv. unfold fire.
  destruct (timers s !! i) as [[d cb]|] eqn:Hi; [|done]. simpl.
  destruct (isStage cb) eqn:Hcb.
  - destruct Hinv as (Hsg & Hch & Hconn). unfold chained in Hch.
    destruct (stageTimers s) as [|t [|t' rest]] eqn:Hst; [| |done].
    + exfalso. eapply (filter_lookup_nonempty (fun t => isStage (callback t))); eauto.
    + destruct (filter_delete_single (fun t => isStage (callback t)) _ _ _ _ Hi Hcb Hst)
        as [<- Hnil].
      destruct Hch as [Hshow Hstat]. simpl in Hstat.
      assert (Hall : allToolsConnected (connectedTools s) sg = true).
      { apply Hconn. rewrite Hstat. by destruct cb. }
      destruct cb; try discriminate; simpl;
        (split; [exact Hsg|]); (split; [|intros _; exact Hall]);
        unfold chained, stageTimers; simpl;
        rewrite List.filter_app, Hnil; simpl; rewrite Hstat; simpl; auto.
  - assert (Hs1 : setupInv sg (setTimers (delete i) (setClock (N.max (clock s) d) s))).
    { eapply setupInv_frame; eauto; try done; [|by left].
      unfold stageTimers. simpl.
      by apply (filter_delete_other (fun t => isStage (callback t)) _ _ _ Hi). }
    destruct cb; try discriminate; simpl.
    + eapply setupInv_frame; eauto; try done. by left.
    + eapply setupInv_frame; eauto; try done. right. by eexists.
    + eapply setupInv_frame; eauto; try done. by left.
Qed.

(** A step that leaves the card's stage cells and [connectedTools] alone;
    what remains is to show that the timers of the chain are the same. *)
Ltac same_setup :=
  eapply setupInv_frame; [eassumption | done | | done | done | by left]; try done.

Lemma auto_step_inv (sg : WorkflowSuggestion) (s : State) (e : Event) :
  setupInv sg s → setupInv sg (step s e).
Proof.
  intros Hinv. unfold step.
  destruct (enabled s e) eqn:Hen; [|done].
  destruct e; simpl in *.
  - same_setup.
  - unfold handleSendMessage. destruct (negb _); [done|]. same_setup.
    rewrite stageTimers_setTimeout. simpl. by rewrite app_nil_r.
  - destruct (prefilledWorkflows !! i); [|done]. same_setup.
  - apply andb_true_iff in Hen as [_ Hen].
    apply negb_true_iff, orb_false_iff in Hen as [Hshow Hall].
    apply negb_false_iff in Hall.
    destruct Hinv as (Hsg & Hch & Hconn).
    unfold handleConnectWorkflow. rewrite Hall. simpl.
    unfold chained in Hch.
    destruct (stageTimers s) as [|t [|t' rest]] eqn:Hst; [| |done].
    + split; [exact Hsg|]. split; [|intros _; by rewrite <- Hsg].
      unfold chained. rewrite stageTimers_setTimeout. simpl.
      unfold stageTimers in *. simpl. rewrite Hst. simpl. done.
    + destruct Hch as [Hshow' _]. congruence.
  - destruct (_ !! i); [|done]. same_setup.
    unfold handleConnectTool. rewrite stageTimers_setTimeout. simpl. by rewrite app_nil_r.
  - same_setup.
    unfold handleConnectTool. rewrite stageTimers_setTimeout. simpl. by rewrite app_nil_r.
  - same_setup.
  - apply bool_decide_eq_true in Hen.
    destruct Hinv as (Hsg & Hch & Hconn).
    split; [exact Hsg|]. split; [|done].
    unfold chained in *. unfold stageTimers in *. simpl.
    destruct (List.filter _ (timers s)) as [|t [|t' rest]]; [| |done].
    + by left.
    + destruct Hch as [_ Hstat]. rewrite Hstat in Hen. by apply statusBefore_not_done in Hen.
  - same_setup.
  - by apply auto_fire_inv.
  - same_setup.
Qed.

Lemma auto_reachable_inv (sg : WorkflowSuggestion) (s : State) :
  reachable sg s → setupInv sg s.
Proof.
  induction 1 as [now history | s e _ IH].
  - apply auto_initial_inv.
  - by apply auto_step_inv.
Qed.

End AutoChain.

(** ** Backward moves *)

Lemma movesBack_irrefl (p : StepStatuses) : ¬ movesBack p p.
Proof. unfold movesBack. lia. Qed.

Section AutoBackward.
Import AutoSetup.
Context `{StringOps}.

(** In [part_001] a reachable card with its connect stage completed has
    every tool of its suggestion connected. *)
Lemma auto_connect_completed_needs_tools (sg : WorkflowSuggestion) (s : State) (t : string) :
  reachable sg s →
  connect (stepStatuses s) = completed →
  t ∈ tools sg →
  connectedTools s !! t = Some true.
Proof.
  intros Hreach Hdone Ht.
  destruct (auto_reachable_inv sg s Hreach) as (_ & _ & Hconn).
  eapply allToolsConnected_spec; [apply Hconn|exact Ht].
  intros Hpend. rewrite Hpend in Hdone. discriminate.
Qed.


Lemma auto_fire_forward (sg : WorkflowSuggestion) (s : State) (i : nat) :
  setupInv sg s → ¬ movesBack (stepStatuses s) (stepStatuses (fire i s)).
Proof.
  intros (_ & Hch & _). unfold fire.
  destruct (timers s !! i) as [[d cb]|] eqn:Hi; [|apply movesBack_irrefl]. simpl.
  destruct (isStage cb) eqn:Hcb.
  - unfold chained in Hch.
    destruct (stageTimers s) as [|t [|t' rest]] eqn:Hst; [| |done].
    + exfalso. eapply (filter_lookup_nonempty (fun t => isStage (callback t))); eauto.
    + destruct (filter_delete_single (fun t => isStage (callback t)) _ _ _ _ Hi Hcb Hst)
        as [<- _].
      destruct Hch as [_ Hstat]. simpl in Hstat.
      destruct cb; try discriminate; simpl; rewrite Hstat; unfold movesBack; simpl; lia.
  - destruct cb; try discriminate; simpl; apply movesBack_irrefl.
Qed.

(** In [part_001] the only step of a reachable card that lowers a stage
    is the edit action. *)
Lemma auto_only_edit_moves_back (sg : WorkflowSuggestion) (s : State) (e : Event) :
  reachable sg s →
  movesBack (stepStatuses s) (stepStatuses (step s e)) →
  e = EditWorkflow.
Proof.
  intros Hreach Hback. pose proof (auto_reachable_inv sg s Hreach) as Hinv.
  unfold step in Hback.
  destruct (enabled s e) eqn:Hen; [|by apply movesBack_irrefl in Hback].
  destruct e; simpl in *; try (by apply movesBack_irrefl in Hback); try done.
  - unfold handleSendMessage in Hback. destruct (negb _); by apply movesBack_irrefl in Hback.
  - destruct (prefilledWorkflows !! i); by apply movesBack_irrefl in Hback.
  - exfalso.
    apply andb_true_iff in Hen as [_ Hen]. apply negb_true_iff, orb_false_iff in Hen as [Hshow Hall].
    apply negb_false_iff in Hall.
    destruct Hinv as (_ & Hch & _). unfold handleConnectWorkflow in Hback.
    rewrite Hall in Hback. simpl in Hback.
    unfold chained in Hch.
    destruct (stageTimers s) as [|t [|t' rest]]; [| |done].
    + destruct Hch as [[_ Hstat] | [Hshow' _]]; [|congruence].
      rewrite Hstat in Hback. unfold movesBack in Hback. simpl in Hback. lia.
    + destruct Hch as [Hshow' _]. congruence.
  - destruct (_ !! i); by apply movesBack_irrefl in Hback.
  - exfalso. by apply (auto_fire_forward sg s i Hinv).
Qed.

End AutoBackward.


(** ** The set-up panel of [part_000] *)

Lemma manual_steps_reachable `{StringOps} (sg : WorkflowSuggestion)
    (s : ManualSetup.State) (es : list ManualSetup.Event) :
  ManualSetup.reachable sg s → ManualSetup.reachable sg (ManualSetup.steps s es).
Proof.
  unfold ManualSetup.steps. revert s.
  induction es as [|e es IH]; intros s Hs; simpl; [done|].
  apply IH. by apply ManualSetup.reachable_step.
Qed.



(** ** A complete run *)

Section AutoRun.
Import AutoSetup.
Context `{StringOps}.


End AutoRun.

Lemma allToolsConnected_none_listed (m : gmap string bool) (sg : WorkflowSuggestion) :
  allToolsConnected m sg = true → disconnectedToolsList m sg = [].
Proof.
  unfold allToolsConnected. destruct (disconnectedToolsList m sg); [done|discriminate].
Qed.

Section ManualRun.
Import ManualSetup.
Context `{StringOps}.




End ManualRun.



(** * Further properties of the code *)

(** ** Substrings and the classifier's keywords *)

Lemma prefix_of_shorter (p q s : string) :
  String.prefix (p ++ q) s = true → String.prefix p s = true.
Proof.
  revert s. induction p as [|c p IH]; intros s Hs; [by destruct s|].
  destruct s as [|d s]; simpl in *; [done|].
  destruct (ascii_dec c d); [by apply IH|done].
Qed.

Lemma includes_shorter (s p q : string) :
  includes s (p ++ q) = true → includes s p = true.
Proof.
  induction s as [|c s IH]; cbn [includes]; intros Hs.
  - rewrite orb_false_r in *. by eapply prefix_of_shorter.
  - apply orb_true_iff in Hs as [Hs | Hs].
    + by rewrite (prefix_of_shorter _ _ _ Hs).
    + rewrite (IH Hs). by rewrite orb_true_r.
Qed.

Lemma prefix_spec (sub s : string) :
  String.prefix sub s = true ↔ ∃ rest, s = sub ++ rest.
Proof.
  revert s. induction sub as [|c sub IH]; intros s.
  - split; [intros _; by exists s | by destruct s].
  - destruct s as [|d s]; simpl.
    + split; [done | intros [rest Hrest]; discriminate].
    + destruct (ascii_dec c d) as [-> | Hne].
      * rewrite IH. split; intros [rest Hrest]; exists rest.
        -- by rewrite Hrest.
        -- by injection Hrest.
      * split; [done | intros [rest [= Hc _]]; done].
Qed.

(** X1.  [includes] is substring search: it answers true exactly when the
    text splits into something, the keyword, and something. *)
Theorem includes_is_substring (s sub : string) :
  includes s sub = true ↔ ∃ before after, s = before ++ sub ++ after.
Proof.
  induction s as [|c s IH]; cbn [includes].
  - rewrite orb_false_r, prefix_spec. split.
    + intros [rest Hrest]. by exists "", rest.
    + intros (before & after & Hs). destruct before; [by exists after | discriminate].
  - rewrite orb_true_iff, IH, prefix_spec. split.
    + intros [[rest Hrest] | (before & after & Hs)].
      * by exists "", rest.
      * exists (String c before), after. simpl. by rewrite Hs.
    + intros (before & after & Hs). destruct before as [|d before]; simpl in Hs.
      * left. by exists after.
      * right. exists before, after. by injection Hs.
Qed.

(** X2.  In rule 3 the second keyword never decides: a text that contains
    "reminder" contains "remind", so the rule is the test for "remind"
    alone. *)
Theorem reminder_keyword_is_redundant (lowerMessage : string) :
  includes lowerMessage "remind" || includes lowerMessage "reminder"
  = includes lowerMessage "remind".
Proof.
  destruct (includes lowerMessage "remind") eqn:Hremind; [done|]. simpl.
  destruct (includes lowerMessage "reminder") eqn:Hreminder; [|done].
  apply (includes_shorter lowerMessage "remind" "er") in Hreminder. congruence.
Qed.

Section ClassifierMore.
Context `{StringOps}.

(** X3.  The two revisions of the classifier differ in labels only: for
    every message they agree on whether there is a suggestion, and on its
    action, tools and prompts. *)
Theorem classifier_revisions_agree (message : string) :
  action <$> analyzeUserIntent message = action <$> Preview.analyzeUserIntent message ∧
  tools <$> analyzeUserIntent message = tools <$> Preview.analyzeUserIntent message ∧
  missingInfo <$> analyzeUserIntent message = missingInfo <$> Preview.analyzeUserIntent message.
Proof.
  unfold analyzeUserIntent, Preview.analyzeUserIntent. cbv zeta.
  destruct (_ && (_ || _ || _)); [done|].
  destruct (_ && _); [done|].
  destruct (_ || _); [done|].
  by destruct (_ || _).
Qed.

(** X4.  The classifier comes back empty-handed exactly for the messages
    that none of the four rules recognises. *)
Theorem no_suggestion_iff_no_rule (message : string) :
  analyzeUserIntent message = None ↔ noRuleMatches message.
Proof.
  split; [|by intros Hnone; apply no_rule_no_suggestion].
  unfold analyzeUserIntent, noRuleMatches. cbv zeta.
  destruct (includes _ "slack" && _) eqn:R1; [done|].
  destruct (includes _ "email" && _) eqn:R2; [done|].
  destruct (includes _ "remind" || _) eqn:R3; [done|].
  destruct (includes _ "when" || _) eqn:R4; [done|].
  intros _.
  apply not_true_iff_false in R1, R2, R3, R4.
  rewrite andb_true_iff, !orb_true_iff in R1. rewrite andb_true_iff in R2.
  rewrite orb_true_iff in R3, R4. tauto.
Qed.

(** X5.  In a fresh session, where only Slack is connected, a suggestion
    of the classifier has all its tools connected exactly when it is the
    Slack template. *)
Theorem only_slack_is_ready (message : string) (sg : WorkflowSuggestion) :
  analyzeUserIntent message = Some sg →
  (allToolsConnected initialConnectedTools sg = true ↔ tools sg = ["Slack"]).
Proof.
  unfold analyzeUserIntent. cbv zeta.
  destruct (_ && (_ || _ || _)); [intros [= <-]; by split|].
  destruct (_ && _); [intros [= <-]; split; [by vm_compute|done]|].
  destruct (_ || _); [intros [= <-]; split; [by vm_compute|done]|].
  destruct (_ || _); [intros [= <-]; split; [by vm_compute|done]|done].
Qed.

End ClassifierMore.

Lemma only_slack_is_ready_witness :
  allToolsConnected initialConnectedTools
    {| trigger := "Time-based"; action := "Send Slack message";
       frequency := "Daily at 9:00 AM"; tools := ["Slack"];
       missingInfo := Some ["Which Slack channel?"; "What message content?"];
       prefilled := None |} = true
  ↔ ["Slack"] = ["Slack"].
Proof.
  apply (@only_slack_is_ready asciiOps "slack me every day"). reflexivity.
Defined.

(** ** Connected and disconnected tools *)

Lemma connectedToolsList_spec (m : gmap string bool) (sg : WorkflowSuggestion) (t : string) :
  t ∈ connectedToolsList m sg ↔ t ∈ tools sg ∧ m !! t = Some true.
Proof.
  unfold connectedToolsList, isConnected.
  rewrite !list_elem_of_In, filter_In.
  destruct (m !! t) as [[|]|]; simpl; split; intros [? ?]; by try split.
Qed.

Lemma disconnectedToolsList_spec (m : gmap string bool) (sg : WorkflowSuggestion) (t : string) :
  t ∈ disconnectedToolsList m sg ↔ t ∈ tools sg ∧ m !! t ≠ Some true.
Proof.
  unfold disconnectedToolsList, isConnected.
  rewrite !list_elem_of_In, filter_In.
  destruct (m !! t) as [[|]|]; simpl; split; intros [? ?]; by try split.
Qed.

(** X6.  The two filters of the card split the tools of the suggestion: every
    tool is in exactly one of the two lists, the connected ones being
    those mapped to true; a tool the map does not hold counts as
    disconnected. *)
Theorem tools_split_in_two (m : gmap string bool) (sg : WorkflowSuggestion) :
  (connectedToolsList m sg ++ disconnectedToolsList m sg)%list ≡ₚ tools sg ∧
  (∀ t, t ∈ connectedToolsList m sg ↔ t ∈ tools sg ∧ m !! t = Some true) ∧
  (∀ t, t ∈ disconnectedToolsList m sg ↔ t ∈ tools sg ∧ m !! t ≠ Some true).
Proof.
  split; [|split; intros t; [apply connectedToolsList_spec | apply disconnectedToolsList_spec]].
  unfold connectedToolsList, disconnectedToolsList.
  induction (tools sg) as [|x l IH]; simpl; [done|].
  destruct (isConnected m x); simpl.
  - by rewrite IH.
  - rewrite <- Permutation_middle. by rewrite IH.
Qed.

(** X7.  Connecting is idempotent and the order of two connections does not
    matter; the promise resolves each time. *)
Theorem connectTool_twice_and_swapped (a b : option string) (m : gmap string bool) :
  connectTool a (connectTool a m).1 = connectTool a m ∧
  (connectTool a (connectTool b m).1).1 = (connectTool b (connectTool a m).1).1 ∧
  (connectTool a m).2 = Resolved.
Proof.
  unfold connectTool. simpl. split; [|split; [|done]].
  - by rewrite insert_insert_eq.
  - destruct (decide (toString a = toString b)) as [-> | Hne]; [done|].
    by apply insert_insert_ne.
Qed.

Lemma connect_each_lookup (l : list string) (m : gmap string bool) (t : string) :
  t ∈ l ∨ m !! t = Some true →
  foldl (fun acc tool => (connectTool (Some tool) acc).1) m l !! t = Some true.
Proof.
  revert m. induction l as [|x l IH]; intros m Ht; simpl.
  - destruct Ht as [Ht | Ht]; [by apply elem_of_nil in Ht | done].
  - apply IH. destruct (decide (x = t)) as [-> | Hne].
    + right. apply lookup_insert_eq.
    + destruct Ht as [Ht | Ht].
      * left. apply elem_of_cons in Ht as [-> | Ht]; done.
      * right. by rewrite lookup_insert_ne.
Qed.

(** X8.  Connecting the tools of a suggestion one after the other, whatever
    was connected before, leaves all of them connected. *)
Theorem connecting_each_tool_connects_all (m : gmap string bool) (sg : WorkflowSuggestion) :
  allToolsConnected
    (foldl (fun acc tool => (connectTool (Some tool) acc).1) m (tools sg)) sg = true.
Proof.
  apply allToolsConnected_spec. intros t Ht. apply connect_each_lookup. by left.
Qed.

Lemma disconnected_after_connect (m : gmap string bool) (sg : WorkflowSuggestion) (t : string) :
  disconnectedToolsList (connectTool (Some t) m).1 sg
  = List.filter (AutoSetup.differs (Some t)) (disconnectedToolsList m sg).
Proof.
  unfold disconnectedToolsList, connectTool, isConnected, AutoSetup.differs. simpl.
  induction (tools sg) as [|x l IH]; simpl; [done|].
  destruct (decide (x = t)) as [-> | Hne].
  - rewrite lookup_insert_eq. simpl. rewrite IH.
    destruct (negb (default false (m !! t))); simpl; [|done].
    by rewrite bool_decide_eq_true_2.
  - rewrite lookup_insert_ne by done.
    destruct (negb (default false (m !! x))); simpl; [|done].
    rewrite bool_decide_eq_false_2 by congruence. simpl. by rewrite IH.
Qed.

(** X9.  In [part_001], when a connection started from the card as it is now
    completes, the note that is appended tells the truth about the state
    it leaves: it names the tools that are still disconnected, or says
    that none is. *)
Theorem connection_note_is_accurate (s : AutoSetup.State) (t : string) :
  let s' := AutoSetup.toolConnected (Some t)
              (disconnectedToolsList (AutoSetup.connectedTools s) (AutoSetup.suggestion s)) s in
  let left := disconnectedToolsList (AutoSetup.connectedTools s') (AutoSetup.suggestion s') in
  AutoSetup.connectedTools s' !! t = Some true ∧
  ∃ note,
    AutoSetup.messages s' = (AutoSetup.messages s ++ [note])%list ∧
    content note =
      "🎉 Great! " ++ t ++ " is now connected. " ++
      (if allToolsConnected (AutoSetup.connectedTools s') (AutoSetup.suggestion s')
       then "All tools are connected! You can now set up your workflow."
       else "You still need to connect " ++ join ", " left ++ ".").
Proof.
  cbv zeta. unfold AutoSetup.toolConnected. simpl.
  split; [apply lookup_insert_eq|].
  eexists. split; [reflexivity|]. simpl.
  unfold allToolsConnected.
  pose proof (disconnected_after_connect (AutoSetup.connectedTools s) (AutoSetup.suggestion s) t) as Hleft.
  unfold connectTool in Hleft. simpl in Hleft. by rewrite Hleft.
Qed.

(** ** The message history *)

Section BasicHistory.
Import Basic.
Context `{StringOps}.

Lemma basic_step_appends (s : State) (e : Event) :
  messages s `prefix_of` messages (step s e).
Proof.
  destruct e; simpl; try done.
  - unfold handleSendMessage. destruct (negb _); [done|]. simpl. by apply prefix_app_r.
  - unfold fire. destruct (timers s !! i) as [[d [input]]|]; [|done]. simpl.
    by apply prefix_app_r.
Qed.

Lemma basic_steps_append (s : State) (es : list Event) :
  messages s `prefix_of` messages (steps s es).
Proof.
  unfold steps. revert s. induction es as [|e es IH]; intros s; simpl; [done|].
  etrans; [apply basic_step_appends | apply IH].
Qed.

Lemma countOf_app (author : MessageType) (l k : list Message) :
  countOf author (l ++ k) = countOf author l + countOf author k.
Proof. unfold countOf. by rewrite List.filter_app, length_app. Qed.

Lemma basic_step_answered (s : State) (e : Event) : answered s → answered (step s e).
Proof.
  intros [Hcount Htyping]. destruct e; simpl; try done.
  - unfold handleSendMessage. destruct (negb _); [done|].
    split; simpl.
    + rewrite !countOf_app, length_app. simpl. unfold countOf at 2 4. simpl. lia.
    + intros _. by destruct (timers s).
  - unfold fire. destruct (timers s !! i) as [[d [input]]|] eqn:Hi; [|done].
    split; simpl; [|done].
    rewrite !countOf_app, length_delete by by eexists. unfold countOf at 2 4. simpl.
    apply lookup_lt_Some in Hi. lia.
Qed.

Lemma basic_steps_answered (s : State) (es : list Event) :
  answered s → answered (steps s es).
Proof.
  unfold steps. revert s. induction es as [|e es IH]; intros s Hs; simpl; [done|].
  by apply IH, basic_step_answered.
Qed.

End BasicHistory.

(** X10.  Every request is answered exactly once.  At any time of a session,
    the bot messages in the history and the replies whose timer is still
    pending add up to the greeting plus one per user message; so when no
    timer is pending the history holds one reply per request. *)
Theorem every_request_answered_once `{StringOps} (now : N) (es : list Basic.Event) :
  let s := Basic.steps (Basic.initial now) es in
  countOf bot (Basic.messages s) + length (Basic.timers s)
  = countOf user (Basic.messages s) + 1.
Proof.
  cbv zeta. apply (basic_steps_answered (Basic.initial now) es). split; [done|]. done.
Qed.

(** X11.  The typing indicator is never left on: whenever it shows, the timer
    of a reply is pending. *)
Theorem typing_means_reply_pending `{StringOps} (now : N) (es : list Basic.Event) :
  let s := Basic.steps (Basic.initial now) es in
  Basic.isTyping s = true → Basic.timers s ≠ [].
Proof.
  cbv zeta. apply (basic_steps_answered (Basic.initial now) es). split; [done|]. done.
Qed.

Lemma typing_means_reply_pending_witness :
  let s := @Basic.steps asciiOps (Basic.initial 0) [Basic.ChangeInput "hi"; Basic.SendMessage] in
  Basic.isTyping s = true ∧ Basic.timers s ≠ [].
Proof.
  cbv zeta. split; [reflexivity|].
  apply (@typing_means_reply_pending asciiOps 0 [Basic.ChangeInput "hi"; Basic.SendMessage]).
  reflexivity.
Defined.

(** X12.  Sending clears the input field, so sending again at once does
    nothing: a double click sends one message.  (That the trimmed empty
    string is empty is a fact of [trim], here a hypothesis.) *)
Theorem send_twice_sends_once `{StringOps}
    (b : Basic.State) (m : ManualSetup.State) (a : AutoSetup.State) :
  trim "" = "" →
  Basic.handleSendMessage (Basic.handleSendMessage b) = Basic.handleSendMessage b ∧
  ManualSetup.handleSendMessage (ManualSetup.handleSendMessage m) = ManualSetup.handleSendMessage m ∧
  AutoSetup.handleSendMessage (AutoSetup.handleSendMessage a) = AutoSetup.handleSendMessage a.
Proof.
  intros Htrim.
  unfold Basic.handleSendMessage, ManualSetup.handleSendMessage, AutoSetup.handleSendMessage.
  split; [|split].
  - destruct (negb (truthy (trim (Basic.input b)))) eqn:Hb; rewrite ?Hb; [done|].
    simpl. by rewrite Htrim.
  - destruct (negb (truthy (trim (ManualSetup.input m)))) eqn:Hm; rewrite ?Hm; [done|].
    simpl. by rewrite Htrim.
  - destruct (negb (truthy (trim (AutoSetup.input a)))) eqn:Ha; rewrite ?Ha; [done|].
    simpl. by rewrite Htrim.
Qed.

Lemma send_twice_sends_once_witness :
  let b := @Basic.step asciiOps (Basic.initial 0) (Basic.ChangeInput "hello") in
  let m := ManualSetup.setInput "hello" (ManualSetup.initial 0 [] slackStandup) in
  let a := AutoSetup.setInput "hello" (AutoSetup.initial 0 [] slackStandup) in
  @Basic.handleSendMessage asciiOps (@Basic.handleSendMessage asciiOps b)
    = @Basic.handleSendMessage asciiOps b ∧
  @ManualSetup.handleSendMessage asciiOps (@ManualSetup.handleSendMessage asciiOps m)
    = @ManualSetup.handleSendMessage asciiOps m ∧
  @AutoSetup.handleSendMessage asciiOps (@AutoSetup.handleSendMessage asciiOps a)
    = @AutoSetup.handleSendMessage asciiOps a.
Proof.
  apply (@send_twice_sends_once asciiOps). reflexivity.
Defined.

Section ManualHistory.
Import ManualSetup.
Context `{StringOps}.

Lemma manual_suggest_all (l : list string) (s : State) :
  foldl (fun acc tool => suggestToolConnection tool acc) s l
  = setMessages (fun prev => (prev ++ (connectionNote (clock s) <$> l))%list) s.
Proof.
  revert s. induction l as [|x l IH]; intros s.
  - destruct s. unfold setMessages. simpl. by rewrite app_nil_r.
  - cbn [foldl]. rewrite IH. destruct s. unfold setMessages, suggestToolConnection. simpl.
    by rewrite <- app_assoc.
Qed.

Lemma manual_step_appends (s : State) (e : Event) :
  messages s `prefix_of` messages (step s e).
Proof.
  unfold step. destruct (enabled s e); [|done].
  destruct e; simpl; try done; try (by apply prefix_app_r).
  - unfold handleSendMessage. destruct (negb _); [done|]. simpl. by apply prefix_app_r.
  - destruct (prefilledWorkflows !! i); [|done]. by apply prefix_app_r.
  - unfold handleConnectWorkflow. destruct (negb _); [|done].
    rewrite manual_suggest_all. by apply prefix_app_r.
  - destruct (_ !! i); done.
  - unfold fire. destruct (timers s !! i) as [[d cb]|]; [|done].
    destruct cb; simpl; try done. by apply prefix_app_r.
Qed.

Lemma manual_steps_append (s : State) (es : list Event) :
  messages s `prefix_of` messages (steps s es).
Proof.
  unfold steps. revert s. induction es as [|e es IH]; intros s; simpl; [done|].
  etrans; [apply manual_step_appends | apply IH].
Qed.

End ManualHistory.

Section AutoHistory.
Import AutoSetup.
Context `{StringOps}.

Lemma auto_step_appends (s : State) (e : Event) :
  messages s `prefix_of` messages (step s e).
Proof.
  unfold step. destruct (enabled s e); [|done].
  destruct e; simpl; try done; try (by apply prefix_app_r).
  - unfold handleSendMessage. destruct (negb _); [done|]. simpl. by apply prefix_app_r.
  - destruct (prefilledWorkflows !! i); [|done]. by apply prefix_app_r.
  - unfold handleConnectWorkflow. destruct (negb _); [|done].
    by destruct (Nat.ltb _ _).
  - destruct (_ !! i); done.
  - unfold fire. destruct (timers s !! i) as [[d cb]|]; [|done].
    destruct cb; simpl; try done; by apply prefix_app_r.
Qed.

Lemma auto_steps_append (s : State) (es : list Event) :
  messages s `prefix_of` messages (steps s es).
Proof.
  unfold steps. revert s. induction es as [|e es IH]; intros s; simpl; [done|].
  etrans; [apply auto_step_appends | apply IH].
Qed.

End AutoHistory.

(** X13.  The history is append-only: in every revision, whatever happens, the
    messages that were there are still there, unchanged and in the same
    place, at the head of the list. *)
Theorem history_is_append_only `{StringOps}
    (b : Basic.State) (bs : list Basic.Event)
    (m : ManualSetup.State) (ms : list ManualSetup.Event)
    (a : AutoSetup.State) (evs : list AutoSetup.Event) :
  Basic.messages b `prefix_of` Basic.messages (Basic.steps b bs) ∧
  ManualSetup.messages m `prefix_of` ManualSetup.messages (ManualSetup.steps m ms) ∧
  AutoSetup.messages a `prefix_of` AutoSetup.messages (AutoSetup.steps a evs).
Proof.
  split; [apply basic_steps_append|]. split; [apply manual_steps_append | apply auto_steps_append].
Qed.

(** X14.  The "Popular Workflows" are offered in a fresh chat only: once the
    history holds a second message, and choosing one of them appends it,
    no later state offers them again. *)
Theorem prefilled_offered_once `{StringOps}
    (m : ManualSetup.State) (ms : list ManualSetup.Event)
    (a : AutoSetup.State) (evs : list AutoSetup.Event) (i j : nat) :
  ManualSetup.enabled m (ManualSetup.ChoosePrefilled i) = true →
  AutoSetup.enabled a (AutoSetup.ChoosePrefilled i) = true →
  ManualSetup.enabled
    (ManualSetup.steps (ManualSetup.step m (ManualSetup.ChoosePrefilled i)) ms)
    (ManualSetup.ChoosePrefilled j) = false ∧
  AutoSetup.enabled
    (AutoSetup.steps (AutoSetup.step a (AutoSetup.ChoosePrefilled i)) evs)
    (AutoSetup.ChoosePrefilled j) = false.
Proof.
  intros Hm Ha. split.
  - pose proof (manual_steps_append (ManualSetup.step m (ManualSetup.ChoosePrefilled i)) ms) as Hpre.
    apply prefix_length in Hpre.
    assert (Hlen : length (ManualSetup.messages (ManualSetup.step m (ManualSetup.ChoosePrefilled i))) = 2).
    { unfold ManualSetup.step. rewrite Hm. simpl in *.
      apply andb_true_iff in Hm as [Hlen Hi]. apply Nat.eqb_eq in Hlen.
      apply bool_decide_eq_true in Hi as [p Hp]. rewrite Hp. simpl.
      rewrite length_app. simpl. lia. }
    rewrite Hlen in Hpre.
    cbn [ManualSetup.enabled]. apply andb_false_iff. left. apply Nat.eqb_neq. lia.
  - pose proof (auto_steps_append (AutoSetup.step a (AutoSetup.ChoosePrefilled i)) evs) as Hpre.
    apply prefix_length in Hpre.
    assert (Hlen : length (AutoSetup.messages (AutoSetup.step a (AutoSetup.ChoosePrefilled i))) = 2).
    { unfold AutoSetup.step. rewrite Ha. simpl in *.
      apply andb_true_iff in Ha as [Hlen Hi]. apply Nat.eqb_eq in Hlen.
      apply bool_decide_eq_true in Hi as [p Hp]. rewrite Hp. simpl.
      rewrite length_app. simpl. lia. }
    rewrite Hlen in Hpre.
    cbn [AutoSetup.enabled]. apply andb_false_iff. left. apply Nat.eqb_neq. lia.
Qed.

Lemma prefilled_offered_once_witness :
  let m := ManualSetup.initial 0 [Basic.greeting 0] slackStandup in
  let a := AutoSetup.initial 0 [Basic.greeting 0] slackStandup in
  ManualSetup.enabled
    (@ManualSetup.steps asciiOps (@ManualSetup.step asciiOps m (ManualSetup.ChoosePrefilled 1))
       [ManualSetup.EditWorkflow])
    (ManualSetup.ChoosePrefilled 0) = false ∧
  AutoSetup.enabled
    (@AutoSetup.steps asciiOps (@AutoSetup.step asciiOps a (AutoSetup.ChoosePrefilled 1))
       [AutoSetup.ViewDashboard])
    (AutoSetup.ChoosePrefilled 0) = false.
Proof.
  apply (@prefilled_offered_once asciiOps); reflexivity.
Defined.



(** ** What the timer chain of [part_001] guarantees *)

Section AutoGuarantees.
Import AutoSetup.
Context `{StringOps}.

Lemma auto_steps_reachable (sg : WorkflowSuggestion) (s : State) (es : list Event) :
  reachable sg s → reachable sg (steps s es).
Proof.
  unfold steps. revert s. induction es as [|e es IH]; intros s Hs; simpl; [done|].
  apply IH. by apply reachable_step.
Qed.

Lemma stageTimers_are_stage (s : State) (t : Timer Callback) :
  t ∈ stageTimers s → isStage (callback t) = true.
Proof. unfold stageTimers. rewrite list_elem_of_In, filter_In. by intros [_ ?]. Qed.

Lemma chained_ordered (s : State) :
  chained s →
  stepStatuses s ∈ orderedStages ∧
  (showSetupSteps s = true ↔ stepStatuses s ≠ allPending).
Proof.
  unfold chained. destruct (stageTimers s) as [|t [|t' rest]] eqn:Hst; [| |done].
  - intros [[-> ->] | [-> ->]]; (split; [set_solver|]); split; done.
  - intros [-> ->].
    assert (Hstage : isStage (callback t) = true).
    { apply (stageTimers_are_stage s). rewrite Hst. apply list_elem_of_here. }
    destruct (callback t); try discriminate; (split; [set_solver|]); split; done.
Qed.

Lemma auto_step_pointer (sg : WorkflowSuggestion) (s : State) (e : Event) :
  setupInv sg s →
  currentStep s = pointerFor (stepStatuses s) →
  currentStep (step s e) = pointerFor (stepStatuses (step s e)).
Proof.
  intros Hinv Hptr. unfold step.
  destruct (enabled s e) eqn:Hen; [|done].
  destruct e; simpl in *; try done.
  - unfold handleSendMessage. by destruct (negb _).
  - by destruct (prefilledWorkflows !! i).
  - apply andb_true_iff in Hen as [_ Hen].
    apply negb_true_iff, orb_false_iff in Hen as [_ Hall]. apply negb_false_iff in Hall.
    unfold handleConnectWorkflow. by rewrite Hall.
  - by destruct (_ !! i).
  - destruct Hinv as (_ & Hch & _). unfold fire.
    destruct (timers s !! i) as [[d cb]|] eqn:Hi; [|done]. simpl.
    destruct (isStage cb) eqn:Hcb.
    + unfold chained in Hch.
      destruct (stageTimers s) as [|t [|t' rest]] eqn:Hst; [| |done].
      * exfalso. eapply (filter_lookup_nonempty (fun t => isStage (callback t))); eauto.
      * destruct (filter_delete_single (fun t => isStage (callback t)) _ _ _ _ Hi Hcb Hst)
          as [<- _].
        destruct Hch as [_ Hstat]. simpl in Hstat.
        destruct cb; try discriminate; simpl; rewrite ?Hstat; try done;
          rewrite Hptr, Hstat; done.
    + destruct cb; try discriminate; simpl; done.
Qed.

Lemma auto_reachable_pointer (sg : WorkflowSuggestion) (s : State) :
  reachable sg s → currentStep s = pointerFor (stepStatuses s).
Proof.
  induction 1 as [now history | s e Hs IH]; [done|].
  apply (auto_step_pointer sg); [by apply auto_reachable_inv | done].
Qed.

End AutoGuarantees.

(** X16.  In [part_001] the stages never overlap and never run out of order: a
    reachable card is in one of seven configurations, in which a stage is
    under way or done only if the stage before it is done, and at most one
    stage is loading. *)
Theorem auto_stages_in_order `{StringOps} (sg : WorkflowSuggestion) (s : AutoSetup.State) :
  AutoSetup.reachable sg s →
  AutoSetup.stepStatuses s ∈ orderedStages.
Proof.
  intros Hs. destruct (auto_reachable_inv sg s Hs) as (_ & Hch & _).
  by apply chained_ordered.
Qed.

Lemma auto_stages_in_order_witness :
  AutoSetup.stepStatuses
    (@AutoSetup.steps asciiOps (AutoSetup.initial 0 [] slackStandup)
       [AutoSetup.ConnectWorkflow; AutoSetup.Fire 0; AutoSetup.Fire 0]) ∈ orderedStages.
Proof.
  apply (@auto_stages_in_order asciiOps slackStandup).
  apply auto_steps_reachable, AutoSetup.reachable_initial.
Defined.

(** X17.  In [part_001] the set-up panel is on screen exactly while some stage
    has left pending. *)
Theorem auto_panel_shown_iff_started `{StringOps} (sg : WorkflowSuggestion) (s : AutoSetup.State) :
  AutoSetup.reachable sg s →
  (AutoSetup.showSetupSteps s = true ↔ AutoSetup.stepStatuses s ≠ allPending).
Proof.
  intros Hs. destruct (auto_reachable_inv sg s Hs) as (_ & Hch & _).
  by apply chained_ordered.
Qed.

Lemma auto_panel_shown_iff_started_witness :
  let s := @AutoSetup.steps asciiOps (AutoSetup.initial 0 [] slackStandup)
             [AutoSetup.ConnectWorkflow; AutoSetup.Fire 0] in
  AutoSetup.showSetupSteps s = true ↔ AutoSetup.stepStatuses s ≠ allPending.
Proof.
  apply (@auto_panel_shown_iff_started asciiOps slackStandup).
  apply auto_steps_reachable, AutoSetup.reachable_initial.
Defined.

(** X18.  In [part_001] the Connect button of the panel's first step is dead:
    the panel is never shown with the connect stage pending, so no
    reachable card offers that button. *)
Theorem auto_panel_connect_is_dead `{StringOps} (sg : WorkflowSuggestion) (s : AutoSetup.State) :
  AutoSetup.reachable sg s →
  AutoSetup.enabled s AutoSetup.ConnectInPanel = false.
Proof.
  intros Hs. destruct (auto_reachable_inv sg s Hs) as (_ & Hch & _).
  destruct (chained_ordered s Hch) as [Hin Hshow].
  simpl. destruct (AutoSetup.showSetupSteps s) eqn:Hpanel; [|done]. simpl.
  pose proof (proj1 Hshow eq_refl) as Hstarted.
  unfold orderedStages, stages in Hin.
  apply elem_of_cons in Hin as [Hin | Hin]; [done|].
  repeat (apply elem_of_cons in Hin as [-> | Hin]; [done|]).
  by apply elem_of_nil in Hin.
Qed.

Lemma auto_panel_connect_is_dead_witness :
  AutoSetup.enabled
    (@AutoSetup.steps asciiOps (AutoSetup.initial 0 [] slackStandup)
       [AutoSetup.ConnectWorkflow; AutoSetup.Fire 0; AutoSetup.Fire 0; AutoSetup.Fire 0;
        AutoSetup.Fire 0; AutoSetup.Fire 0; AutoSetup.EditWorkflow])
    AutoSetup.ConnectInPanel = false.
Proof.
  apply (@auto_panel_connect_is_dead asciiOps slackStandup).
  apply auto_steps_reachable, AutoSetup.reachable_initial.
Defined.

(** X19.  In [part_001] the panel's "Connecting..." note is never shown: its
    condition asks for a tool that is not connected, and no stage leaves
    pending before every tool is. *)
Theorem auto_connecting_note_never_shown `{StringOps} (sg : WorkflowSuggestion) (s : AutoSetup.State) :
  AutoSetup.reachable sg s →
  AutoSetup.showsConnectingNote s = false.
Proof.
  intros Hs. destruct (auto_reachable_inv sg s Hs) as (Hsg & _ & Hconn).
  unfold AutoSetup.showsConnectingNote.
  destruct (bool_decide (connect (AutoSetup.stepStatuses s) = loading)) eqn:Hload;
    [|by rewrite andb_false_r].
  apply bool_decide_eq_true in Hload.
  rewrite Hsg, Hconn; [by rewrite andb_false_r|].
  intros Hpend. rewrite Hpend in Hload. discriminate.
Qed.

Lemma auto_connecting_note_never_shown_witness :
  AutoSetup.showsConnectingNote
    (@AutoSetup.steps asciiOps (AutoSetup.initial 0 [] slackStandup) [AutoSetup.ConnectWorkflow])
  = false.
Proof.
  apply (@auto_connecting_note_never_shown asciiOps slackStandup).
  apply auto_steps_reachable, AutoSetup.reachable_initial.
Defined.

(** X20.  In [part_001] the step pointer follows the stages: it is 1 until the
    connect stage is completed, 2 until the permissions stage is, and 3
    from then on; it never leaves the range 1..3. *)
Theorem auto_pointer_follows_stages `{StringOps} (sg : WorkflowSuggestion) (s : AutoSetup.State) :
  AutoSetup.reachable sg s →
  AutoSetup.currentStep s = pointerFor (AutoSetup.stepStatuses s) ∧
  (1 ≤ AutoSetup.currentStep s ≤ 3)%nat.
Proof.
  intros Hs. pose proof (auto_reachable_pointer sg s Hs) as Hptr.
  split; [done|]. rewrite Hptr. unfold pointerFor.
  destruct (bool_decide _), (bool_decide _); lia.
Qed.

Lemma auto_pointer_follows_stages_witness :
  let s := @AutoSetup.steps asciiOps (AutoSetup.initial 0 [] slackStandup)
             [AutoSetup.ConnectWorkflow; AutoSetup.Fire 0; AutoSetup.Fire 0] in
  AutoSetup.currentStep s = pointerFor (AutoSetup.stepStatuses s) ∧
  (1 ≤ AutoSetup.currentStep s ≤ 3)%nat.
Proof.
  apply (@auto_pointer_follows_stages asciiOps slackStandup).
  apply auto_steps_reachable, AutoSetup.reachable_initial.
Defined.

(** X21.  In [part_001] the edit action is offered only when all three stages
    are completed, and it hands the card back ready to be set up again:
    stages pending, panel closed, main button enabled. *)
Theorem auto_edit_allows_rerun `{StringOps} (sg : WorkflowSuggestion) (s : AutoSetup.State) :
  AutoSetup.reachable sg s →
  AutoSetup.enabled s AutoSetup.EditWorkflow = true →
  AutoSetup.stepStatuses s = allCompleted ∧
  AutoSetup.showSetupSteps (AutoSetup.step s AutoSetup.EditWorkflow) = false ∧
  AutoSetup.enabled (AutoSetup.step s AutoSetup.EditWorkflow) AutoSetup.ConnectWorkflow = true.
Proof.
  intros Hs Hen. destruct (auto_reachable_inv sg s Hs) as (Hsg & Hch & Hconn).
  destruct (chained_ordered s Hch) as [Hin _].
  assert (Hdone : AutoSetup.stepStatuses s = allCompleted).
  { simpl in Hen. apply bool_decide_eq_true in Hen.
    unfold orderedStages, stages in Hin.
    repeat (apply elem_of_cons in Hin as [Hin | Hin];
            [rewrite Hin in Hen; try discriminate; exact Hin|]).
    by apply elem_of_nil in Hin. }
  split; [exact Hdone|].
  unfold AutoSetup.step. rewrite Hen. simpl. split; [done|].
  rewrite Hsg, Hconn; [done|]. by rewrite Hdone.
Qed.

Lemma auto_edit_allows_rerun_witness :
  let s := @AutoSetup.steps asciiOps (AutoSetup.initial 0 [] slackStandup)
             [AutoSetup.ConnectWorkflow; AutoSetup.Fire 0; AutoSetup.Fire 0; AutoSetup.Fire 0;
              AutoSetup.Fire 0; AutoSetup.Fire 0] in
  AutoSetup.stepStatuses s = allCompleted ∧
  AutoSetup.showSetupSteps (@AutoSetup.step asciiOps s AutoSetup.EditWorkflow) = false ∧
  AutoSetup.enabled (@AutoSetup.step asciiOps s AutoSetup.EditWorkflow) AutoSetup.ConnectWorkflow = true.
Proof.
  apply (@auto_edit_allows_rerun asciiOps slackStandup).
  - apply auto_steps_reachable, AutoSetup.reachable_initial.
  - reflexivity.
Defined.

(** ** What the panel of [part_000] guarantees *)

Section ManualGuarantees.
Import ManualSetup.
Context `{StringOps}.

Lemma manual_suggest_panel (l : list string) (s : State) :
  suggestion (foldl (fun acc tool => suggestToolConnection tool acc) s l) = suggestion s ∧
  showSetupSteps (foldl (fun acc tool => suggestToolConnection tool acc) s l) = showSetupSteps s.
Proof. by rewrite manual_suggest_all. Qed.

Lemma manual_step_panel (s : State) (e : Event) :
  suggestion (step s e) = suggestion s ∧
  (showSetupSteps (step s e) = showSetupSteps s ∨
   showSetupSteps (step s e) = false ∨
   connectedTools (step s e) = connectedTools s ∧
   allToolsConnected (connectedTools s) (suggestion s) = true).
Proof.
  unfold step. destruct (enabled s e); [|by split; [|left]].
  destruct e; simpl; try (by split; [|left]).
  - unfold handleSendMessage. destruct (negb _); by split; [|left].
  - destruct (prefilledWorkflows !! i); by split; [|left].
  - unfold handleConnectWorkflow.
    destruct (allToolsConnected _ _) eqn:Hall; simpl.
    + split; [done|]. right. right. done.
    + destruct (manual_suggest_panel
                  (disconnectedToolsList (connectedTools s) (suggestion s)) s) as [-> ->].
      by split; [|left].
  - destruct (_ !! i); by split; [|left].
  - split; [done|]. right. by left.
  - unfold fire. destruct (timers s !! i) as [[d cb]|]; [|by split; [|left]].
    destruct cb; simpl; by split; [|left].
Qed.

Lemma manual_step_panelInv (sg : WorkflowSuggestion) (s : State) (e : Event) :
  panelInv sg s → panelInv sg (step s e).
Proof.
  intros [Hsg Hpanel].
  destruct (manual_step_panel s e) as [Hsg' Hshow].
  split; [congruence|]. intros Hopen.
  assert (Hset : flagSet (connectedTools s) (connectedTools (step s e))).
  { destruct (manual_step_connectedTools s e) as [-> | (i & name & _ & _ & ->)];
      [by left | right; by eexists]. }
  destruct Hshow as [Hsame | [Hclosed | [Htools Hall]]].
  - eapply allToolsConnected_flagSet; [exact Hset|]. apply Hpanel. congruence.
  - congruence.
  - rewrite Htools. by rewrite <- Hsg.
Qed.

Lemma manual_reachable_panelInv (sg : WorkflowSuggestion) (s : State) :
  reachable sg s → panelInv sg s.
Proof.
  induction 1 as [now history | s e _ IH]; [by split|].
  by apply manual_step_panelInv.
Qed.

End ManualGuarantees.

(** X22.  In [part_000] the set-up panel is on screen only with every tool of
    the suggestion connected.  (The connect stage itself can be completed
    with a tool missing, but then the panel is closed.) *)
Theorem manual_panel_needs_all_tools `{StringOps}
    (sg : WorkflowSuggestion) (s : ManualSetup.State) (t : string) :
  ManualSetup.reachable sg s →
  ManualSetup.showSetupSteps s = true →
  t ∈ tools sg →
  ManualSetup.connectedTools s !! t = Some true.
Proof.
  intros Hs Hopen Ht. destruct (manual_reachable_panelInv sg s Hs) as [_ Hpanel].
  eapply allToolsConnected_spec; [by apply Hpanel | exact Ht].
Qed.

Lemma manual_panel_needs_all_tools_witness :
  ManualSetup.connectedTools
    (@ManualSetup.steps asciiOps (ManualSetup.initial 0 [] slackStandup)
       [ManualSetup.ConnectWorkflow]) !! "Slack" = Some true.
Proof.
  apply (@manual_panel_needs_all_tools asciiOps slackStandup).
  - apply manual_steps_reachable, ManualSetup.reachable_initial.
  - reflexivity.
  - apply list_elem_of_here.
Defined.

(** X23.  In [part_000] the panel's note "You'll be redirected to connect your
    ... account" is never shown: it asks for the panel to be open and a
    tool to be disconnected. *)
Theorem manual_redirect_note_never_shown `{StringOps}
    (sg : WorkflowSuggestion) (s : ManualSetup.State) :
  ManualSetup.reachable sg s →
  ManualSetup.showsRedirectNote s = false.
Proof.
  intros Hs. destruct (manual_reachable_panelInv sg s Hs) as [Hsg Hpanel].
  unfold ManualSetup.showsRedirectNote.
  destruct (ManualSetup.showSetupSteps s); [|done].
  rewrite Hsg, Hpanel by done. by rewrite andb_false_r.
Qed.

Lemma manual_redirect_note_never_shown_witness :
  ManualSetup.showsRedirectNote
    (@ManualSetup.steps asciiOps (ManualSetup.initial 0 [] emailToWhatsApp)
       [ManualSetup.ConnectWorkflow; ManualSetup.ConnectListedTool 0]) = false.
Proof.
  apply (@manual_redirect_note_never_shown asciiOps emailToWhatsApp).
  apply manual_steps_reachable, ManualSetup.reachable_initial.
Defined.

(** X24.  In [part_000] the Connect button of the panel has no tool to connect:
    whenever a reachable card offers it, [disconnectedToolsList[0]] is
    [undefined], the connection is started for [undefined], and when its
    timer runs the key "undefined" is what gets marked connected. *)
Theorem manual_panel_connects_undefined `{StringOps}
    (sg : WorkflowSuggestion) (s : ManualSetup.State) :
  ManualSetup.reachable sg s →
  ManualSetup.enabled s ManualSetup.ConnectInPanel = true →
  let s1 := ManualSetup.step s ManualSetup.ConnectInPanel in
  ManualSetup.connectingTool s1 = None ∧
  callback <$> last (ManualSetup.timers s1) = Some (ManualSetup.ToolConnected None) ∧
  ManualSetup.connectedTools (ManualSetup.fire (length (ManualSetup.timers s)) s1)
    = <["undefined" := true]> (ManualSetup.connectedTools s).
Proof.
  intros Hs Hen. cbv zeta.
  destruct (manual_reachable_panelInv sg s Hs) as [Hsg Hpanel].
  assert (Hnone : disconnectedToolsList (ManualSetup.connectedTools s) (ManualSetup.suggestion s) = []).
  { apply allToolsConnected_none_listed. rewrite Hsg. apply Hpanel.
    simpl in Hen. by destruct (ManualSetup.showSetupSteps s). }
  unfold ManualSetup.step. rewrite Hen. simpl.
  unfold ManualSetup.handleConnectTool. rewrite Hnone. simpl.
  split; [done|]. split; [by rewrite last_snoc|].
  unfold ManualSetup.fire. simpl.
  rewrite list_lookup_middle by reflexivity. simpl. done.
Qed.

Lemma manual_panel_connects_undefined_witness :
  let s := @ManualSetup.steps asciiOps (ManualSetup.initial 0 [] slackStandup)
             [ManualSetup.ConnectWorkflow] in
  let s1 := @ManualSetup.step asciiOps s ManualSetup.ConnectInPanel in
  ManualSetup.connectingTool s1 = None ∧
  callback <$> last (ManualSetup.timers s1) = Some (ManualSetup.ToolConnected None) ∧
  ManualSetup.connectedTools (@ManualSetup.fire asciiOps (length (ManualSetup.timers s)) s1)
    = <["undefined" := true]> (ManualSetup.connectedTools s).
Proof.
  apply (@manual_panel_connects_undefined asciiOps slackStandup).
  - apply manual_steps_reachable, ManualSetup.reachable_initial.
  - reflexivity.
Defined.

(** ** Icons and colours *)

(** X25.  In [part_001] icon and colour recognise the same tools: a tool gets
    the grey colour exactly when it gets the fallback icon. *)
Theorem grey_iff_fallback_icon `{StringOps} (tool : string) :
  AutoSetup.getToolColor tool = "bg-gray-500" ↔ AutoSetup.getToolIcon tool = ZapIcon.
Proof.
  unfold AutoSetup.getToolColor, AutoSetup.getToolIcon. cbv zeta.
  repeat (destruct (String.eqb (toLowerCase tool) _); [done|]). done.
Qed.

(** X26.  The icon of a tool is the same in every revision, except that the
    first one does not know "google sheets" and gives it the fallback
    icon. *)
Theorem icons_agree_but_for_sheets `{StringOps} (tool : string) :
  ManualSetup.getToolIcon tool = AutoSetup.getToolIcon tool ∧
  Basic.getToolIcon tool =
    (if String.eqb (toLowerCase tool) "google sheets" then ZapIcon
     else AutoSetup.getToolIcon tool).
Proof.
  split; [done|].
  unfold Basic.getToolIcon, AutoSetup.getToolIcon. cbv zeta.
  destruct (String.eqb (toLowerCase tool) "slack") eqn:E1;
    [apply String.eqb_eq in E1; by rewrite E1|].
  destruct (String.eqb (toLowerCase tool) "whatsapp") eqn:E2;
    [apply String.eqb_eq in E2; by rewrite E2|].
  destruct (String.eqb (toLowerCase tool) "gmail") eqn:E3;
    [apply String.eqb_eq in E3; by rewrite E3|].
  destruct (String.eqb (toLowerCase tool) "calendar") eqn:E4;
    [apply String.eqb_eq in E4; by rewrite E4|].
  by destruct (String.eqb (toLowerCase tool) "google sheets").
Qed.

(** ** Connecting a listed tool *)

Lemma connected_not_listed (m : gmap string bool) (sg : WorkflowSuggestion) (t : string) :
  t ∉ disconnectedToolsList (<[t := true]> m) sg.
Proof.
  rewrite disconnectedToolsList_spec, lookup_insert_eq. by intros [_ ?].
Qed.

(** X27.  Pressing Connect next to a listed tool and letting its timer run
    marks that tool connected, changes no other entry, and takes the tool
    off the list.  In [part_000] this needs the name to be non-empty: an
    empty name is falsy, and [toolName || disconnectedToolsList[0]] would
    pick the first listed tool instead. *)
Theorem listed_connect_connects_that_tool `{StringOps}
    (m : ManualSetup.State) (a : AutoSetup.State) (i j : nat) (tool name : string) :
  ManualSetup.enabled m (ManualSetup.ConnectListedTool i) = true →
  disconnectedToolsList (ManualSetup.connectedTools m) (ManualSetup.suggestion m) !! i = Some tool →
  tool ≠ "" →
  AutoSetup.enabled a (AutoSetup.ConnectListedTool j) = true →
  disconnectedToolsList (AutoSetup.connectedTools a) (AutoSetup.suggestion a) !! j = Some name →
  (let m' := ManualSetup.fire (length (ManualSetup.timers m))
               (ManualSetup.step m (ManualSetup.ConnectListedTool i)) in
   ManualSetup.connectedTools m' = <[tool := true]> (ManualSetup.connectedTools m) ∧
   tool ∉ disconnectedToolsList (ManualSetup.connectedTools m') (ManualSetup.suggestion m')) ∧
  (let a' := AutoSetup.fire (length (AutoSetup.timers a))
               (AutoSetup.step a (AutoSetup.ConnectListedTool j)) in
   AutoSetup.connectedTools a' = <[name := true]> (AutoSetup.connectedTools a) ∧
   name ∉ disconnectedToolsList (AutoSetup.connectedTools a') (AutoSetup.suggestion a')).
Proof.
  intros Hm Htool Hname Ha Hlisted. cbv zeta. split.
  - unfold ManualSetup.step. rewrite Hm. simpl. rewrite Htool.
    unfold ManualSetup.handleConnectTool. simpl. rewrite (truthy_nonempty _ Hname).
    unfold ManualSetup.fire. simpl.
    rewrite list_lookup_middle by reflexivity. simpl.
    split; [done|]. apply connected_not_listed.
  - unfold AutoSetup.step. rewrite Ha. simpl. rewrite Hlisted.
    unfold AutoSetup.handleConnectTool, AutoSetup.fire. simpl.
    rewrite list_lookup_middle by reflexivity. simpl.
    split; [done|]. apply connected_not_listed.
Qed.

Lemma listed_connect_connects_that_tool_witness :
  let m := ManualSetup.initial 0 [] emailToWhatsApp in
  let a := AutoSetup.initial 0 [] emailToWhatsApp in
  (let m' := @ManualSetup.fire asciiOps (length (ManualSetup.timers m))
               (@ManualSetup.step asciiOps m (ManualSetup.ConnectListedTool 1)) in
   ManualSetup.connectedTools m' = <["WhatsApp" := true]> (ManualSetup.connectedTools m) ∧
   "WhatsApp" ∉ disconnectedToolsList (ManualSetup.connectedTools m') (ManualSetup.suggestion m')) ∧
  (let a' := @AutoSetup.fire asciiOps (length (AutoSetup.timers a))
               (@AutoSetup.step asciiOps a (AutoSetup.ConnectListedTool 0)) in
   AutoSetup.connectedTools a' = <["Gmail" := true]> (AutoSetup.connectedTools a) ∧
   "Gmail" ∉ disconnectedToolsList (AutoSetup.connectedTools a') (AutoSetup.suggestion a')).
Proof.
  intros m a.
  apply (@listed_connect_connects_that_tool asciiOps m a 1 0 "WhatsApp" "Gmail");
    try reflexivity. discriminate.
Defined.
